(** * ultimate-internet-test: the probe orchestrator, the ping probe and the
    result store, embedded from the Go sources

    - [utils] types ([HTTPTest], [SpeedTest], [VPNTest], [PingTest],
      [TestResults]) and the error taxonomy of utils/errors.go;
    - the result store of utils (LoadResults, SaveResults, AppendResult) over an
      explicit world: a file system and a clock;
    - the probes of modules/ (TestHTTP, PingCheck) over an explicit
      environment that stands for the network;
    - the orchestrators of main.go (runHTTPTests, runAllTests) over an explicit
      completion order of the goroutines.

    Go values are modelled as follows.  [int] and [time.Duration] are [Z]
    (the modelled code does no arithmetic on them that could wrap); [float64]
    is the IEEE 754 binary64 format of [SpecFloat]; [string] is a byte string
    ([String.string], one [ascii] per byte); a slice is a [list] (a nil slice
    and an empty one are both [[]], the code only ever looks at [len]); a
    pointer that may be nil is an [option]; [time.Time] is the instant it
    denotes. *)

From Stdlib Require Import ZArith List String Ascii Bool Lia Permutation.
From Stdlib Require Import Floats.SpecFloat.
From stdpp Require Import base gmap strings list pretty.

Open Scope Z_scope.

Set Warnings "-register-all".

(** ** Go base types *)

Definition float64 : Type := spec_float.

Module F64.
Definition prec : Z := 53.
Definition emax : Z := 1024.

Definition zero : float64 := S754_zero false.

(** [float64(n)] for an integer [n]. *)
Definition of_int (n : Z) : float64 := binary_normalize prec emax n 0 false.

Definition div (x y : float64) : float64 := SFdiv prec emax x y.
Definition mul (x y : float64) : float64 := SFmul prec emax x y.

(** Go's [==] on float64. *)
Definition eqb (x y : float64) : bool := SFeqb x y.

(** [math.IsInf(f, 0) || math.IsNaN(f)] *)
Definition is_inf_or_nan (x : float64) : bool :=
  match x with
  | S754_infinity _ | S754_nan => true
  | _ => false
  end.
End F64.

(** [time.Time], as the instant it denotes: nanoseconds since
    January 1, year 1, 00:00:00 UTC, which is the zero value of the type. *)
Module Time.
Definition t : Type := Z.

Definition zero : t := 0.

Definition IsZero (x : t) : bool := x =? 0.

(** Go's [Time.Equal]: the same instant. *)
Definition Equal (x y : t) : bool := x =? y.

Definition nanos_per_day : Z := 86400 * 1000000000.

(** First instant of year 0 and first instant of year 10000; RFC 3339 text
    exists for the years in between only. *)
Definition year0 : t := - 366 * nanos_per_day.
Definition year10000 : t := 3652059 * nanos_per_day.

Definition rfc3339_ok (x : t) : bool := (year0 <=? x) && (x <? year10000).
End Time.

(** ** utils: result types *)

Module HTTPTest.
Record t := mk {
  URL : string;
  Status : string;
  Proto : string;
  TLSVersion : string;
  CipherSuite : string;
  ServerName : string;
  ResponseLength : Z;
  Error : string
}.

Definition zero : t := mk "" "" "" "" "" "" 0 "".
End HTTPTest.

Module SpeedTest.
Record t := mk {
  URL : string;
  DownloadMbps : float64;
  ElapsedTime : Z;
  BytesReceived : Z;
  Error : string
}.

Definition zero : t := mk "" F64.zero 0 0 "".
End SpeedTest.

Module VPNTest.
Record t := mk {
  Status : string;
  Error : string
}.

Definition zero : t := mk "" "".
End VPNTest.

Module PingTest.
Record t := mk {
  URL : string;
  Transmitted : Z;
  Received : Z;
  Loss : float64;
  Error : string
}.

Definition zero : t := mk "" 0 0 F64.zero "".

Definition set_Error (e : string) (r : t) : t :=
  mk (URL r) (Transmitted r) (Received r) (Loss r) e.
End PingTest.

Module TestResults.
Record t := mk {
  HTTPTests : list HTTPTest.t;
  SpeedTests : list SpeedTest.t;
  VPNTest : VPNTest.t;
  PingTest : PingTest.t;
  Timestamp : Time.t
}.

Definition zero : t := mk [] [] VPNTest.zero PingTest.zero Time.zero.

Definition set_HTTPTests (x : list HTTPTest.t) (r : t) : t :=
  mk x (SpeedTests r) (VPNTest r) (PingTest r) (Timestamp r).
Definition set_SpeedTests (x : list SpeedTest.t) (r : t) : t :=
  mk (HTTPTests r) x (VPNTest r) (PingTest r) (Timestamp r).
Definition set_VPNTest (x : VPNTest.t) (r : t) : t :=
  mk (HTTPTests r) (SpeedTests r) x (PingTest r) (Timestamp r).
Definition set_PingTest (x : PingTest.t) (r : t) : t :=
  mk (HTTPTests r) (SpeedTests r) (VPNTest r) x (Timestamp r).
Definition set_Timestamp (x : Time.t) (r : t) : t :=
  mk (HTTPTests r) (SpeedTests r) (VPNTest r) (PingTest r) x.
End TestResults.

(** ** utils: the error taxonomy *)

Inductive os_error :=
| ENOENT   (* no such file or directory *)
| EACCES.  (* permission denied *)

Inductive json_error :=
| SyntaxError            (* the text is not a JSON document *)
| UnmarshalTypeError     (* a JSON value does not fit the Go field *)
| UnsupportedValueError  (* a float64 that is NaN or infinite *)
| MarshalerError         (* Time.MarshalJSON: year outside of [0,9999] *)
| TimeParseError.        (* Time.UnmarshalJSON: not an RFC 3339 string *)

(** The underlying error wrapped by a [TestError]. *)
Inductive cause :=
| OsError (e : os_error)
| JSONError (e : json_error).

Record TestError := {
  TestType : string;
  Message : string;
  Err : option cause
}.

Definition NewTestError (testType message : string) (err : option cause) : TestError :=
  {| TestType := testType; Message := message; Err := err |}.

Inductive error :=
| NetworkError (e : TestError)
| TimeoutError (e : TestError)
| ValidationError (e : TestError)
| ParseError (e : TestError).

Definition NewNetworkError (testType message : string) (err : cause) : error :=
  NetworkError (NewTestError testType message (Some err)).

Definition NewTimeoutError (testType message : string) : error :=
  TimeoutError (NewTestError testType message None).

Definition NewValidationError (testType message : string) : error :=
  ValidationError (NewTestError testType message None).

Definition NewParseError (testType message : string) (err : cause) : error :=
  ParseError (NewTestError testType message (Some err)).

(** ** encoding/json, as far as the result store uses it

    A file holds JSON text.  The text codec itself (indentation, escapes,
    number literals) is not modelled: a document is its tree of values.  What
    is modelled is what the struct tags of utils decide: which members are
    written, under which key, what [omitempty] leaves out, and how a document
    is read back into the structs; and what the encoder does to a Go value on
    the way: string bytes that are not UTF-8 are replaced, NaN and infinities
    are refused. *)

Inductive json :=
| JNull
| JInt (z : Z)              (* a number literal written for an integer *)
| JFloat (f : float64)      (* a number literal written for a float64: the
                               shortest decimal that reads back as [f] *)
| JString (s : string)      (* a string, always valid UTF-8 *)
| JTime (t : Time.t)        (* the string holding [t] in RFC 3339 format *)
| JArray (l : list json)
| JObject (ms : list (string * json)).

Inductive res (A : Type) :=
| Ok (a : A)
| Fail (e : json_error).
Arguments Ok {A} a.
Arguments Fail {A} e.

Definition res_bind {A B} (r : res A) (k : A -> res B) : res B :=
  match r with
  | Ok a => k a
  | Fail e => Fail e
  end.

Notation "'let*' x := r 'in' k" := (res_bind r (fun x => k))
  (at level 10, x name, r at level 100, k at level 200).

Fixpoint res_mapM {A B} (f : A -> res B) (l : list A) : res (list B) :=
  match l with
  | [] => Ok []
  | a :: l' => let* b := f a in let* bs := res_mapM f l' in Ok (b :: bs)
  end.

(** *** UTF-8 (unicode/utf8) *)

Module utf8.
Definition byte (a : ascii) : Z := Z.of_N (N_of_ascii a).

Definition between (lo hi : Z) (a : ascii) : bool :=
  (lo <=? byte a) && (byte a <=? hi).

(** Length of the encoding announced by a leading byte; 0 for a byte that
    cannot start an encoding (continuation bytes, 0xC0, 0xC1, 0xF5..0xFF). *)
Definition lead_len (a : ascii) : nat :=
  if byte a <? 128 then 1%nat
  else if between 194 223 a then 2%nat
  else if between 224 239 a then 3%nat
  else if between 240 244 a then 4%nat
  else 0%nat.

(** The range accepted for the second byte, which excludes overlong
    encodings, surrogates and code points above U+10FFFF. *)
Definition second_ok (a b : ascii) : bool :=
  if byte a =? 224 then between 160 191 b
  else if byte a =? 237 then between 128 159 b
  else if byte a =? 240 then between 144 191 b
  else if byte a =? 244 then between 128 143 b
  else between 128 191 b.

Definition cont (b : ascii) : bool := between 128 191 b.

(** [utf8.ValidString] *)
Fixpoint ValidString (s : string) : bool :=
  match s with
  | EmptyString => true
  | String a s1 =>
    match lead_len a, s1 with
    | 1%nat, _ => ValidString s1
    | 2%nat, String b s2 => second_ok a b && ValidString s2
    | 3%nat, String b (String c s3) =>
      second_ok a b && cont c && ValidString s3
    | 4%nat, String b (String c (String d s4)) =>
      second_ok a b && cont c && cont d && ValidString s4
    | _, _ => false
    end
  end.

(** U+FFFD, the replacement character, in UTF-8: EF BF BD. *)
Definition RuneError : string :=
  String (ascii_of_N 239) (String (ascii_of_N 191) (String (ascii_of_N 189) EmptyString)).

(** What the JSON encoder writes for a Go string and the decoder reads back:
    the encoder walks the string with [utf8.DecodeRuneInString] and writes
    U+FFFD for every byte at which no valid encoding starts. *)
Fixpoint toValidUTF8 (s : string) : string :=
  match s with
  | EmptyString => EmptyString
  | String a s1 =>
    match lead_len a, s1 with
    | 1%nat, _ => String a (toValidUTF8 s1)
    | 2%nat, String b s2 =>
      if second_ok a b then String a (String b (toValidUTF8 s2))
      else RuneError +:+ toValidUTF8 s1
    | 3%nat, String b (String c s3) =>
      if second_ok a b && cont c
      then String a (String b (String c (toValidUTF8 s3)))
      else RuneError +:+ toValidUTF8 s1
    | 4%nat, String b (String c (String d s4)) =>
      if second_ok a b && cont c && cont d
      then String a (String b (String c (String d (toValidUTF8 s4))))
      else RuneError +:+ toValidUTF8 s1
    | _, _ => RuneError +:+ toValidUTF8 s1
    end
  end.
End utf8.

(** *** Encoding (json.MarshalIndent) *)

Module Encode.
Definition members : Type := list (string * json).

(** [isEmptyValue] of encoding/json, for the kinds that occur: a string or
    slice of length 0, an integer or float equal to 0.  A struct is never
    empty, so [omitempty] has no effect on a field of struct type. *)
Definition empty_string (s : string) : bool := Nat.eqb (String.length s) 0.
Definition empty_slice {A} (l : list A) : bool := Nat.eqb (List.length l) 0.
Definition empty_int (z : Z) : bool := z =? 0.
Definition empty_float (f : float64) : bool := F64.eqb f F64.zero.
Definition empty_struct {A} (x : A) : bool := false.

Definition string_ (s : string) : res json := Ok (JString (utf8.toValidUTF8 s)).
Definition int_ (z : Z) : res json := Ok (JInt z).
Definition float_ (f : float64) : res json :=
  if F64.is_inf_or_nan f then Fail UnsupportedValueError else Ok (JFloat f).
Definition time_ (t : Time.t) : res json :=
  if Time.rfc3339_ok t then Ok (JTime t) else Fail MarshalerError.
Definition slice_ {A} (enc : A -> res json) (l : list A) : res json :=
  let* js := res_mapM enc l in Ok (JArray js).

(** A struct field tagged [json:"k"] and one tagged [json:"k,omitempty"]. *)
Definition field (k : string) (v : res json) : res members :=
  let* j := v in Ok [(k, j)].
Definition field_omitempty (empty : bool) (k : string) (v : res json) : res members :=
  if empty then Ok [] else field k v.

(** The fields of a struct are written in declaration order; the first
    failure aborts the encoding. *)
Fixpoint struct_members (fs : list (res members)) : res members :=
  match fs with
  | [] => Ok []
  | f :: fs' => let* m := f in let* ms := struct_members fs' in Ok (m ++ ms)
  end.
Definition struct_ (fs : list (res members)) : res json :=
  let* ms := struct_members fs in Ok (JObject ms).

Definition HTTPTest_ (h : HTTPTest.t) : res json :=
  struct_
    [ field "url" (string_ (HTTPTest.URL h));
      field "status" (string_ (HTTPTest.Status h));
      field_omitempty (empty_string (HTTPTest.Proto h)) "proto" (string_ (HTTPTest.Proto h));
      field_omitempty (empty_string (HTTPTest.TLSVersion h)) "tls_version"
        (string_ (HTTPTest.TLSVersion h));
      field_omitempty (empty_string (HTTPTest.CipherSuite h)) "cipher_suite"
        (string_ (HTTPTest.CipherSuite h));
      field_omitempty (empty_string (HTTPTest.ServerName h)) "server_name"
        (string_ (HTTPTest.ServerName h));
      field_omitempty (empty_int (HTTPTest.ResponseLength h)) "response_length"
        (int_ (HTTPTest.ResponseLength h));
      field_omitempty (empty_string (HTTPTest.Error h)) "error" (string_ (HTTPTest.Error h)) ].

Definition SpeedTest_ (s : SpeedTest.t) : res json :=
  struct_
    [ field "url" (string_ (SpeedTest.URL s));
      field "download_mbps" (float_ (SpeedTest.DownloadMbps s));
      field "elapsed_time" (int_ (SpeedTest.ElapsedTime s));
      field "bytes_received" (int_ (SpeedTest.BytesReceived s));
      field_omitempty (empty_string (SpeedTest.Error s)) "error" (string_ (SpeedTest.Error s)) ].

Definition VPNTest_ (v : VPNTest.t) : res json :=
  struct_
    [ field "status" (string_ (VPNTest.Status v));
      field_omitempty (empty_string (VPNTest.Error v)) "error" (string_ (VPNTest.Error v)) ].

Definition PingTest_ (p : PingTest.t) : res json :=
  struct_
    [ field_omitempty (empty_string (PingTest.URL p)) "url" (string_ (PingTest.URL p));
      field_omitempty (empty_int (PingTest.Transmitted p)) "transmitted_packets"
        (int_ (PingTest.Transmitted p));
      field_omitempty (empty_int (PingTest.Received p)) "received_packets"
        (int_ (PingTest.Received p));
      field_omitempty (empty_float (PingTest.Loss p)) "loss_packets"
        (float_ (PingTest.Loss p));
      field_omitempty (empty_string (PingTest.Error p)) "error" (string_ (PingTest.Error p)) ].

Definition TestResults_ (r : TestResults.t) : res json :=
  struct_
    [ field_omitempty (empty_slice (TestResults.HTTPTests r)) "http_tests"
        (slice_ HTTPTest_ (TestResults.HTTPTests r));
      field_omitempty (empty_slice (TestResults.SpeedTests r)) "speed_tests"
        (slice_ SpeedTest_ (TestResults.SpeedTests r));
      field_omitempty (empty_struct (TestResults.VPNTest r)) "vpn_test"
        (VPNTest_ (TestResults.VPNTest r));
      field_omitempty (empty_struct (TestResults.PingTest r)) "ping_test"
        (PingTest_ (TestResults.PingTest r));
      field "timestamp" (time_ (TestResults.Timestamp r)) ].
End Encode.

(** *** Decoding (json.Unmarshal)

    A JSON object is read member by member into the struct it is decoded
    into: a known key sets its field, an unknown key is skipped, [null]
    leaves the destination as it is, a missing key leaves the field at the
    value it had.

    A key sets the field whose name it equals or, failing that, the field
    whose name it equals under Unicode simple case folding.  The names of the
    fields here are ASCII and no two of them fold to the same name, so a key
    belongs to the one field whose folded name is the folded key: ASCII
    letters match without regard to case, every other ASCII byte matches
    itself only, and of the runes outside ASCII exactly two fold to an ASCII
    letter, the long s (U+017F, bytes C5 BF) to S and the Kelvin sign
    (U+212A, bytes E2 84 AA) to K. *)

Module Decode.
Definition upper (c : ascii) : ascii :=
  let n := N_of_ascii c in
  if ((97 <=? n) && (n <=? 122))%N then ascii_of_N (n - 32) else c.

(** The folded form of a name.  A rune outside ASCII other than the two
    above folds to a rune outside ASCII; its bytes are kept as they are,
    which tells as much when the name compared with is ASCII. *)
Fixpoint foldName (s : string) : string :=
  match s with
  | EmptyString => EmptyString
  | String c s1 =>
    if (N_of_ascii c <? 128)%N then String (upper c) (foldName s1)
    else
      match s1 with
      | String c1 s2 =>
        if ((N_of_ascii c =? 197) && (N_of_ascii c1 =? 191))%N
        then String "S" (foldName s2)
        else
          match s2 with
          | String c2 s3 =>
            if ((N_of_ascii c =? 226) && (N_of_ascii c1 =? 132) && (N_of_ascii c2 =? 170))%N
            then String "K" (foldName s3)
            else String c (foldName s1)
          | EmptyString => String c (foldName s1)
          end
      | EmptyString => String c EmptyString
      end
  end.

(** Whether the key [k] of a member belongs to the field named [name]. *)
Definition equalFold (k name : string) : bool :=
  String.eqb (foldName k) (foldName name).

Definition string_ (v : json) (old : string) : res string :=
  match v with
  | JNull => Ok old
  | JString s => Ok s
  | _ => Fail UnmarshalTypeError
  end.

Definition int_ (v : json) (old : Z) : res Z :=
  match v with
  | JNull => Ok old
  | JInt z => Ok z
  | _ => Fail UnmarshalTypeError
  end.

Definition float_ (v : json) (old : float64) : res float64 :=
  match v with
  | JNull => Ok old
  | JFloat f => Ok f
  | JInt z => Ok (F64.of_int z)
  | _ => Fail UnmarshalTypeError
  end.

Definition time_ (v : json) (old : Time.t) : res Time.t :=
  match v with
  | JNull => Ok old
  | JTime t => Ok t
  | JString _ => Fail TimeParseError
  | _ => Fail UnmarshalTypeError
  end.

Fixpoint members {A} (fld : string -> json -> A -> res A)
    (ms : list (string * json)) (x : A) : res A :=
  match ms with
  | [] => Ok x
  | (k, v) :: ms' => let* x' := fld k v x in members fld ms' x'
  end.

Definition struct_ {A} (fld : string -> json -> A -> res A) (v : json) (old : A) : res A :=
  match v with
  | JNull => Ok old
  | JObject ms => members fld ms old
  | _ => Fail UnmarshalTypeError
  end.

(** A JSON array replaces the slice; each element is decoded into a fresh
    zero value. *)
Definition slice_ {A} (dec : json -> A -> res A) (zero : A) (v : json) (old : list A) :
    res (list A) :=
  match v with
  | JNull => Ok old
  | JArray js => res_mapM (fun j => dec j zero) js
  | _ => Fail UnmarshalTypeError
  end.

Definition HTTPTest_field (k : string) (v : json) (h : HTTPTest.t) : res HTTPTest.t :=
  let '(HTTPTest.mk url status proto tls cipher server len err) := h in
  if equalFold k "url" then
    let* x := string_ v url in Ok (HTTPTest.mk x status proto tls cipher server len err)
  else if equalFold k "status" then
    let* x := string_ v status in Ok (HTTPTest.mk url x proto tls cipher server len err)
  else if equalFold k "proto" then
    let* x := string_ v proto in Ok (HTTPTest.mk url status x tls cipher server len err)
  else if equalFold k "tls_version" then
    let* x := string_ v tls in Ok (HTTPTest.mk url status proto x cipher server len err)
  else if equalFold k "cipher_suite" then
    let* x := string_ v cipher in Ok (HTTPTest.mk url status proto tls x server len err)
  else if equalFold k "server_name" then
    let* x := string_ v server in Ok (HTTPTest.mk url status proto tls cipher x len err)
  else if equalFold k "response_length" then
    let* x := int_ v len in Ok (HTTPTest.mk url status proto tls cipher server x err)
  else if equalFold k "error" then
    let* x := string_ v err in Ok (HTTPTest.mk url status proto tls cipher server len x)
  else Ok h.

Definition SpeedTest_field (k : string) (v : json) (s : SpeedTest.t) : res SpeedTest.t :=
  let '(SpeedTest.mk url mbps elapsed bytes err) := s in
  if equalFold k "url" then
    let* x := string_ v url in Ok (SpeedTest.mk x mbps elapsed bytes err)
  else if equalFold k "download_mbps" then
    let* x := float_ v mbps in Ok (SpeedTest.mk url x elapsed bytes err)
  else if equalFold k "elapsed_time" then
    let* x := int_ v elapsed in Ok (SpeedTest.mk url mbps x bytes err)
  else if equalFold k "bytes_received" then
    let* x := int_ v bytes in Ok (SpeedTest.mk url mbps elapsed x err)
  else if equalFold k "error" then
    let* x := string_ v err in Ok (SpeedTest.mk url mbps elapsed bytes x)
  else Ok s.

Definition VPNTest_field (k : string) (v : json) (t : VPNTest.t) : res VPNTest.t :=
  let '(VPNTest.mk status err) := t in
  if equalFold k "status" then
    let* x := string_ v status in Ok (VPNTest.mk x err)
  else if equalFold k "error" then
    let* x := string_ v err in Ok (VPNTest.mk status x)
  else Ok t.

Definition PingTest_field (k : string) (v : json) (p : PingTest.t) : res PingTest.t :=
  let '(PingTest.mk url sent recv loss err) := p in
  if equalFold k "url" then
    let* x := string_ v url in Ok (PingTest.mk x sent recv loss err)
  else if equalFold k "transmitted_packets" then
    let* x := int_ v sent in Ok (PingTest.mk url x recv loss err)
  else if equalFold k "received_packets" then
    let* x := int_ v recv in Ok (PingTest.mk url sent x loss err)
  else if equalFold k "loss_packets" then
    let* x := float_ v loss in Ok (PingTest.mk url sent recv x err)
  else if equalFold k "error" then
    let* x := string_ v err in Ok (PingTest.mk url sent recv loss x)
  else Ok p.

Definition HTTPTest_ : json -> HTTPTest.t -> res HTTPTest.t := struct_ HTTPTest_field.
Definition SpeedTest_ : json -> SpeedTest.t -> res SpeedTest.t := struct_ SpeedTest_field.
Definition VPNTest_ : json -> VPNTest.t -> res VPNTest.t := struct_ VPNTest_field.
Definition PingTest_ : json -> PingTest.t -> res PingTest.t := struct_ PingTest_field.

Definition TestResults_field (k : string) (v : json) (r : TestResults.t) : res TestResults.t :=
  let '(TestResults.mk https speeds vpn ping ts) := r in
  if equalFold k "http_tests" then
    let* x := slice_ HTTPTest_ HTTPTest.zero v https in Ok (TestResults.mk x speeds vpn ping ts)
  else if equalFold k "speed_tests" then
    let* x := slice_ SpeedTest_ SpeedTest.zero v speeds in Ok (TestResults.mk https x vpn ping ts)
  else if equalFold k "vpn_test" then
    let* x := VPNTest_ v vpn in Ok (TestResults.mk https speeds x ping ts)
  else if equalFold k "ping_test" then
    let* x := PingTest_ v ping in Ok (TestResults.mk https speeds vpn x ts)
  else if equalFold k "timestamp" then
    let* x := time_ v ts in Ok (TestResults.mk https speeds vpn ping x)
  else Ok r.

Definition TestResults_ : json -> TestResults.t -> res TestResults.t :=
  struct_ TestResults_field.
End Decode.

(** ** os: files

    A flat name space of regular files.  Access is checked as for an
    unprivileged owner: reading needs the owner-read bit (0400) of the file's
    mode, writing to an existing file its owner-write bit (0200).  The umask
    is taken to be 0.  The empty name names no file. *)

Module os.
(** The bytes of a file, up to the JSON text codec. *)
Inductive bytes :=
| JSONText (j : json)   (* the text of the document [j] *)
| NotJSON.              (* anything that does not parse as JSON *)

Record file := mkfile {
  data : bytes;
  mode : Z
}.

Definition may_read (f : file) : bool := Z.testbit (mode f) 8.
Definition may_write (f : file) : bool := Z.testbit (mode f) 7.

Definition ReadFile (fs : gmap string file) (name : string) : bytes + os_error :=
  if String.eqb name "" then inr ENOENT
  else
    match fs !! name with
    | None => inr ENOENT
    | Some f => if may_read f then inl (data f) else inr EACCES
    end.

(** [WriteFile] creates the file with permissions [perm] when it does not
    exist; otherwise it truncates it and writes, without changing its
    permissions. *)
Definition WriteFile (fs : gmap string file) (name : string) (d : bytes) (perm : Z) :
    gmap string file * option os_error :=
  if String.eqb name "" then (fs, Some ENOENT)
  else
    match fs !! name with
    | None => (<[name := mkfile d perm]> fs, None)
    | Some f =>
      if may_write f then (<[name := mkfile d (mode f)]> fs, None)
      else (fs, Some EACCES)
    end.

Definition IsNotExist (e : os_error) : bool :=
  match e with
  | ENOENT => true
  | _ => false
  end.
End os.

Module json_.
Definition MarshalIndent (r : TestResults.t) : res os.bytes :=
  let* j := Encode.TestResults_ r in Ok (os.JSONText j).

(** [json.Unmarshal(data, &results)] *)
Definition Unmarshal (d : os.bytes) (results : TestResults.t) : res TestResults.t :=
  match d with
  | os.NotJSON => Fail SyntaxError
  | os.JSONText j => Decode.TestResults_ j results
  end.
End json_.

(** ** The world of the result store: the files and the clock

    [clock] is the sequence of readings that successive calls of [time.Now]
    return; [ticks] counts the calls made so far. *)

Record World := mkWorld {
  files : gmap string os.file;
  clock : nat -> Time.t;
  ticks : nat
}.

Definition set_files (fs : gmap string os.file) (w : World) : World :=
  mkWorld fs (clock w) (ticks w).

Definition time_Now (w : World) : Time.t * World :=
  (clock w (ticks w), mkWorld (files w) (clock w) (S (ticks w))).

(** ** utils: the result store (LoadResults, SaveResults, AppendResult)

    [resultsMutex] makes the body of LoadResults and of SaveResults atomic with
    respect to each other; each is one step on the world.  LoadResults returns a
    pointer and an error of which exactly one is non-nil: a sum. *)

Definition LoadResults (filePath : string) (w : World) : (TestResults.t + error) * World :=
  match os.ReadFile (files w) filePath with
  | inr err =>
    if os.IsNotExist err then
      let '(now, w') := time_Now w in
      (inl (TestResults.set_Timestamp now TestResults.zero), w')
    else
      (inr (NewNetworkError "Storage" "failed to read results file" (OsError err)), w)
  | inl data =>
    match json_.Unmarshal data TestResults.zero with
    | Fail e => (inr (NewParseError "Storage" "failed to parse results JSON" (JSONError e)), w)
    | Ok results => (inl results, w)
    end
  end.

(** What a call of SaveResults leaves behind: the report its argument points
    to (SaveResults writes the timestamp through the pointer), the error it
    returns, and the world. *)
Record Saved := mkSaved {
  saved_results : option TestResults.t;
  saved_err : option error;
  saved_world : World
}.

Definition SaveResults (results : option TestResults.t) (filePath : string)
    (filePermissions : Z) (w : World) : Saved :=
  match results with
  | None => mkSaved None (Some (NewValidationError "Storage" "results cannot be nil")) w
  | Some r =>
    let '(r, w) :=
      if Time.IsZero (TestResults.Timestamp r)
      then let '(now, w') := time_Now w in (TestResults.set_Timestamp now r, w')
      else (r, w) in
    match json_.MarshalIndent r with
    | Fail e =>
      mkSaved (Some r)
        (Some (NewParseError "Storage" "failed to marshal results to JSON" (JSONError e))) w
    | Ok data =>
      match os.WriteFile (files w) filePath data filePermissions with
      | (fs, Some e) =>
        mkSaved (Some r)
          (Some (NewNetworkError "Storage" "failed to write results file" (OsError e)))
          (set_files fs w)
      | (fs, None) => mkSaved (Some r) None (set_files fs w)
      end
    end
  end.

Definition AppendResult (httpTests : list HTTPTest.t) (speedTests : list SpeedTest.t)
    (vpnTest : option VPNTest.t) (pingTest : option PingTest.t)
    (filePath : string) (filePermissions : Z) (w : World) : option error * World :=
  let '(loaded, w) := LoadResults filePath w in
  let '(results, w) :=
    match loaded with
    | inr _ =>
      let '(now, w') := time_Now w in
      (TestResults.set_Timestamp now TestResults.zero, w')
    | inl r => (r, w)
    end in
  let results :=
    if (0 <? List.length httpTests)%nat
    then TestResults.set_HTTPTests (TestResults.HTTPTests results ++ httpTests) results
    else results in
  let results :=
    if (0 <? List.length speedTests)%nat
    then TestResults.set_SpeedTests (TestResults.SpeedTests results ++ speedTests) results
    else results in
  let results :=
    match vpnTest with
    | Some v => TestResults.set_VPNTest v results
    | None => results
    end in
  let results :=
    match pingTest with
    | Some p => TestResults.set_PingTest p results
    | None => results
    end in
  let '(now, w) := time_Now w in
  let results := TestResults.set_Timestamp now results in
  let s := SaveResults (Some results) filePath filePermissions w in
  (saved_err s, saved_world s).

(** ** config *)

Module config.
Record Config := mkConfig {
  HTTPTimeout : Z;
  PingCount : Z;
  PingTimeout : Z;
  SpeedTestTimeout : Z;
  ResultsFilePath : string
}.

Definition Second : Z := 1000000000.

Definition DefaultHTTPTimeout : Z := 5 * Second.
Definition DefaultPingCount : Z := 5.
Definition DefaultPingTimeout : Z := 10 * Second.
Definition DefaultSpeedTestTimeout : Z := 10 * Second.
Definition DefaultResultsFilePath : string := "data.json".
Definition BytesToBits : Z := 8.
Definition BytesToMegabytes : Z := 1000000.
(** 0644, rw-r--r-- *)
Definition FilePermissions : Z := 420.

Definition New : Config :=
  mkConfig DefaultHTTPTimeout DefaultPingCount DefaultPingTimeout
    DefaultSpeedTestTimeout DefaultResultsFilePath.
End config.

(** ** github.com/go-ping/ping

    Modelled from the spec: the Pinger is a dependency of the repository and
    its code is not under src/.  Section 4.2 of the spec gives its events
    (receive increments the received count, a duplicate does not, finish hands
    out the final transmitted and received counts and the loss
    [(transmitted-received)/transmitted*100]); the bookkeeping below is the
    library's: a sent sequence number is awaited until its first reply, a
    reply to a sequence number that is not awaited is a duplicate, no more
    than [Count] packets are sent, and the loop ends when [Count] replies
    have been received.  The finish event is the terminal event of a session
    that ran to its count or was stopped; a failure, before the echo sequence
    (opening the socket, the first send) or during it (reading from the
    socket), makes Run return the error at once, and no finish event fires.

    The handlers are the fields OnRecv, OnDuplicateRecv and OnFinish; a
    handler is a function on the state [S] its closure captures. *)

Module ping.
Record Packet := mkPacket {
  Nbytes : Z;
  IPAddr : string;
  Seq : Z;
  Rtt : Z;
  Ttl : Z
}.

Record Statistics := mkStatistics {
  stat_PacketsRecv : Z;
  stat_PacketsSent : Z;
  stat_PacketsRecvDuplicates : Z;
  stat_PacketLoss : float64;
  stat_Addr : string
}.

Record Pinger (S : Type) := mkPinger {
  Count : Z;
  addr : string;
  ipaddr : string;
  PacketsSent : Z;
  PacketsRecv : Z;
  PacketsRecvDuplicates : Z;
  sequence : Z;
  awaitingSequences : list Z;
  OnRecv : option (Packet -> S -> S);
  OnDuplicateRecv : option (Packet -> S -> S);
  OnFinish : option (Statistics -> S -> S)
}.
Arguments mkPinger {S}.
Arguments Count {S}.
Arguments addr {S}.
Arguments ipaddr {S}.
Arguments PacketsSent {S}.
Arguments PacketsRecv {S}.
Arguments PacketsRecvDuplicates {S}.
Arguments sequence {S}.
Arguments awaitingSequences {S}.
Arguments OnRecv {S}.
Arguments OnDuplicateRecv {S}.
Arguments OnFinish {S}.

(** What happens on the wire while Run blocks. *)
Inductive wire :=
| Tick                    (* the send interval elapses *)
| Reply (pkt : Packet).   (* an echo reply to this pinger arrives *)

(** Why the echo loop is left when the count has not been reached. *)
Inductive ending :=
| Stopped                   (* Stop() after an interrupt, or the timeout *)
| ReadError (err : string). (* reading from the socket fails *)

Inductive script :=
| ListenError (err : string)  (* the socket cannot be opened *)
| SendError (err : string)    (* the first echo request cannot be sent *)
| Session (ws : list wire) (e : ending).

(** [New(addr)] followed by [Resolve()], as [NewPinger] does. *)
Definition NewPinger {S} (resolve : string -> string + string) (a : string) :
    Pinger S + string :=
  match resolve a with
  | inr err => inr err
  | inl ip => inl (mkPinger (-1) a ip 0 0 0 0 [] None None None)
  end.

Definition call {S A} (h : option (A -> S -> S)) (a : A) (s : S) : S :=
  match h with
  | Some f => f a s
  | None => s
  end.

Definition sendICMP {S} (p : Pinger S) : Pinger S :=
  mkPinger (Count p) (addr p) (ipaddr p) (PacketsSent p + 1) (PacketsRecv p)
    (PacketsRecvDuplicates p) (sequence p + 1) (sequence p :: awaitingSequences p)
    (OnRecv p) (OnDuplicateRecv p) (OnFinish p).

Definition inflight {S} (p : Pinger S) (seq : Z) : bool :=
  existsb (Z.eqb seq) (awaitingSequences p).

Definition processPacket {S} (p : Pinger S) (pkt : Packet) (s : S) : Pinger S * S :=
  if inflight p (Seq pkt) then
    (mkPinger (Count p) (addr p) (ipaddr p) (PacketsSent p) (PacketsRecv p + 1)
       (PacketsRecvDuplicates p) (sequence p)
       (List.filter (fun q => negb (Z.eqb (Seq pkt) q)) (awaitingSequences p))
       (OnRecv p) (OnDuplicateRecv p) (OnFinish p),
     call (OnRecv p) pkt s)
  else
    (mkPinger (Count p) (addr p) (ipaddr p) (PacketsSent p) (PacketsRecv p)
       (PacketsRecvDuplicates p + 1) (sequence p) (awaitingSequences p)
       (OnRecv p) (OnDuplicateRecv p) (OnFinish p),
     call (OnDuplicateRecv p) pkt s).

Definition step {S} (p : Pinger S) (w : wire) (s : S) : Pinger S * S :=
  match w with
  | Tick =>
    if (0 <? Count p) && (Count p <=? PacketsSent p) then (p, s)
    else (sendICMP p, s)
  | Reply pkt => processPacket p pkt s
  end.

Definition count_reached {S} (p : Pinger S) : bool :=
  (0 <? Count p) && (Count p <=? PacketsRecv p).

(** The echo loop; the boolean tells whether it ended on the count. *)
Fixpoint runLoop {S} (p : Pinger S) (ws : list wire) (s : S) : Pinger S * S * bool :=
  match ws with
  | [] => (p, s, false)
  | w :: ws' =>
    let '(p', s') := step p w s in
    if count_reached p' then (p', s', true) else runLoop p' ws' s'
  end.

Definition GetStatistics {S} (p : Pinger S) : Statistics :=
  mkStatistics (PacketsRecv p) (PacketsSent p) (PacketsRecvDuplicates p)
    (F64.mul (F64.div (F64.of_int (PacketsSent p - PacketsRecv p))
                (F64.of_int (PacketsSent p)))
       (F64.of_int 100))
    (addr p).

Definition finish {S} (p : Pinger S) (s : S) : S :=
  call (OnFinish p) (GetStatistics p) s.

(** Run blocks until the session is over.  A session that reached its count
    or was stopped ends with the finish event and no error; a failure returns
    its error, the pinger and the state of the handlers as they stand. *)
Definition Run {S} (p : Pinger S) (sc : script) (s : S) : Pinger S * S * option string :=
  match sc with
  | ListenError err | SendError err => (p, s, Some err)
  | Session ws e =>
    let '(p', s', counted) := runLoop (sendICMP p) ws s in
    if counted then (p', finish p' s', None)
    else match e with
         | Stopped => (p', finish p' s', None)
         | ReadError err => (p', s', Some err)
         end
  end.
End ping.

(** ** The network, as the probes see it

    Each probe is a function of its target and of what the network answers.
    The answers are taken from an environment. *)

Module net.
Record ConnectionState := mkTLS {
  Version : N;
  CipherSuite : N;
  ServerName : string
}.

Record Response := mkResponse {
  Status : string;
  Proto : string;
  TLS : option ConnectionState;
  (** [io.ReadAll(resp.Body)]: the body, or the error of the read *)
  Body : string + string
}.

Inductive http_outcome :=
| RequestError (err : string)   (* http.NewRequest fails *)
| DoError (err : string)        (* client.Do fails: connection, DNS, timeout *)
| Responds (resp : Response).

Inductive speed_outcome :=
| GetError (err : string)
| SpeedReadError (err : string)
| Downloaded (body : string) (elapsed : Z).

Inductive vpn_outcome :=
| VPNGetError (err : string)
| VPNReadError (err : string)
| NoMatch                        (* the body does not match IPPattern *)
| InvalidIP (externalIP : string)
| LookupError (err : string)
| NoLocalIPs
| Looked (externalIP : string) (localIP0 : string).

Record Env := mkEnv {
  http_get : string -> http_outcome;
  speed_get : string -> speed_outcome;
  vpn_check : string -> vpn_outcome;
  resolve : string -> string + string;
  ping_script : string -> ping.script
}.
End net.

(** ** modules: the probes *)

Definition len (s : string) : Z := Z.of_nat (String.length s).

Definition TestHTTP (env : net.Env) (url : string) (cfg : config.Config) : HTTPTest.t :=
  match net.http_get env url with
  | net.RequestError err => HTTPTest.mk url "" "" "" "" "" 0 err
  | net.DoError err => HTTPTest.mk url "" "" "" "" "" 0 err
  | net.Responds resp =>
    let '(tlsVersion, cipherSuite, serverName) :=
      match net.TLS resp with
      | Some tls =>
        (pretty (net.Version tls), pretty (net.CipherSuite tls), net.ServerName tls)
      | None => (""%string, ""%string, ""%string)
      end in
    match net.Body resp with
    | inr err =>
      HTTPTest.mk url (net.Status resp) (net.Proto resp) tlsVersion cipherSuite serverName 0 err
    | inl body =>
      HTTPTest.mk url (net.Status resp) (net.Proto resp) tlsVersion cipherSuite serverName
        (len body) ""
    end
  end.

(** [d.Seconds()] for a [time.Duration] *)
Definition Seconds (d : Z) : float64 :=
  SFadd F64.prec F64.emax
    (F64.of_int (Z.quot d config.Second))
    (F64.div (F64.of_int (Z.rem d config.Second)) (F64.of_int 1000000000)).

Definition CheckSpeed (env : net.Env) (url : string) (cfg : config.Config) : SpeedTest.t :=
  match net.speed_get env url with
  | net.GetError err => SpeedTest.mk url F64.zero 0 0 err
  | net.SpeedReadError err => SpeedTest.mk url F64.zero 0 0 err
  | net.Downloaded body elapsedTime =>
    let speed := F64.div (F64.of_int (len body)) (Seconds elapsedTime) in
    SpeedTest.mk url
      (F64.mul (F64.div speed (F64.of_int config.BytesToMegabytes))
         (F64.of_int config.BytesToBits))
      elapsedTime (len body) ""
  end.

Definition CheckVPN (env : net.Env) (ipChecker : string) : VPNTest.t :=
  match net.vpn_check env ipChecker with
  | net.VPNGetError err => VPNTest.mk "" err
  | net.VPNReadError err => VPNTest.mk "" err
  | net.NoMatch => VPNTest.mk "" "could not extract IP address from response"
  | net.InvalidIP externalIP =>
    VPNTest.mk "" ("invalid IP address extracted: " +:+ externalIP)
  | net.LookupError err => VPNTest.mk "" err
  | net.NoLocalIPs => VPNTest.mk "" "no local IP addresses found"
  | net.Looked externalIP localIP0 =>
    if String.eqb externalIP localIP0
    then VPNTest.mk "Not using VPN or proxy." ""
    else VPNTest.mk "Using VPN or proxy." ""
  end.

(** *** PingCheck

    The three handlers close over [result]; what they print is kept as a list
    of lines next to it. *)

Inductive line :=
| LogRecv (pkt : ping.Packet)
| LogDup (pkt : ping.Packet)
| LogStatistics (stats : ping.Statistics)
| LogFailedToCreate (domain err : string)
| LogFailed (domain err : string)
| LogPing (addr ipaddr : string)
| LogRule.

Definition session : Type := PingTest.t * list line.

Definition PingCheck_OnRecv (pkt : ping.Packet) (s : session) : session :=
  (fst s, snd s ++ [LogRecv pkt]).

Definition PingCheck_OnDuplicateRecv (pkt : ping.Packet) (s : session) : session :=
  (fst s, snd s ++ [LogDup pkt]).

Definition PingCheck_OnFinish (stats : ping.Statistics) (s : session) : session :=
  (PingTest.mk (PingTest.URL (fst s))
     (ping.stat_PacketsSent stats)
     (ping.stat_PacketsRecv stats)
     (ping.stat_PacketLoss stats)
     (PingTest.Error (fst s)),
   snd s ++ [LogStatistics stats]).

(** The pinger as PingCheck sets it up before Run. *)
Definition PingCheck_pinger (pinger : ping.Pinger session) (cfg : config.Config) :
    ping.Pinger session :=
  ping.mkPinger (config.PingCount cfg) (ping.addr pinger) (ping.ipaddr pinger)
    (ping.PacketsSent pinger) (ping.PacketsRecv pinger) (ping.PacketsRecvDuplicates pinger)
    (ping.sequence pinger) (ping.awaitingSequences pinger)
    (Some PingCheck_OnRecv) (Some PingCheck_OnDuplicateRecv) (Some PingCheck_OnFinish).

Definition PingCheck_session (env : net.Env) (domain : string) (cfg : config.Config) : session :=
  let result := PingTest.mk domain 0 0 F64.zero "" in
  match ping.NewPinger (net.resolve env) domain with
  | inr err =>
    (PingTest.set_Error err result, [LogFailedToCreate domain err; LogRule])
  | inl pinger =>
    let pinger := PingCheck_pinger pinger cfg in
    let out := [LogPing (ping.addr pinger) (ping.ipaddr pinger)] in
    let '(_, (result, out), err) :=
      ping.Run pinger (net.ping_script env domain) (result, out) in
    match err with
    | Some err => (PingTest.set_Error err result, out ++ [LogFailed domain err; LogRule])
    | None => (result, out ++ [LogRule])
    end
  end.

Definition PingCheck (env : net.Env) (domain : string) (cfg : config.Config) : PingTest.t :=
  fst (PingCheck_session env domain cfg).

(** ** main: the orchestrators

    Every goroutine runs its probe and then stores the result; the store is
    one atomic step (under [mu] in runAllTests, on a slot of its own in
    runHTTPTests).  [wg.Wait] returns when every goroutine has done its
    store.  A run is therefore determined by the order in which the
    goroutines do their stores: the schedule, which is any permutation of
    the goroutines launched. *)

(** The values behind the non-nil pointers of a slice of pointers. *)
Definition values {A} (ptrs : list (option A)) : list A := omap id ptrs.

(** *** runHTTPTests *)

(** The goroutine launched for [urls[index]], with the arguments it is
    given. *)
Definition http_goroutines (urls : list string) : list (nat * string) :=
  imap (fun index u => (index, u)) urls.

(** [httpTests[index] = modules.TestHTTP(u, cfg)] *)
Definition http_store (env : net.Env) (cfg : config.Config)
    (httpTests : list (option HTTPTest.t)) (g : nat * string) : list (option HTTPTest.t) :=
  <[fst g := Some (TestHTTP env (snd g) cfg)]> httpTests.

Definition runHTTPTests (env : net.Env) (urls : list string) (cfg : config.Config)
    (sched : list (nat * string)) (w : World) : Saved :=
  let httpTests := fold_left (http_store env cfg) sched (replicate (List.length urls) None) in
  let results := values httpTests in
  let testResults := TestResults.mk results [] VPNTest.zero PingTest.zero Time.zero in
  SaveResults (Some testResults) (config.ResultsFilePath cfg) config.FilePermissions w.

(** *** runAllTests *)

Inductive task :=
| HTTPTask (u : string)
| SpeedTask (u : string)
| VPNTask
| PingTask (d : string).

Record containers := mkContainers {
  httpTests : list (option HTTPTest.t);
  speedTests : list (option SpeedTest.t);
  vpnTest : option VPNTest.t;
  pingTest : option PingTest.t
}.

(** The store of each kind of goroutine. *)
Definition store (env : net.Env) (cfg : config.Config) (c : containers) (g : task) :
    containers :=
  match g with
  | HTTPTask u =>
    let result := Some (TestHTTP env u cfg) in
    mkContainers (httpTests c ++ [result]) (speedTests c) (vpnTest c) (pingTest c)
  | SpeedTask u =>
    let result := Some (CheckSpeed env u cfg) in
    mkContainers (httpTests c) (speedTests c ++ [result]) (vpnTest c) (pingTest c)
  | VPNTask =>
    mkContainers (httpTests c) (speedTests c)
      (Some (CheckVPN env "http://checkip.dyndns.org/")) (pingTest c)
  | PingTask d =>
    let result := Some (PingCheck env d cfg) in
    match pingTest c with
    | None => mkContainers (httpTests c) (speedTests c) (vpnTest c) result
    | Some _ => c
    end
  end.

Definition launched (httpURLs speedURLs pingDomains : list string) : list task :=
  map HTTPTask httpURLs ++ map SpeedTask speedURLs ++ [VPNTask] ++ map PingTask pingDomains.

Definition httpURLs : list string :=
  [ "http://www.google.com/"; "https://www.google.com/"; "https://www.facebook.com/";
    "https://www.youtube.com/"; "https://leader.ir/" ]%string.

Definition speedURLs : list string :=
  [ "https://ehsanghaffarii.ir"; "https://google.com" ]%string.

Definition pingDomains : list string :=
  [ "www.ehsanghaffarii.ir"; "www.google.com" ]%string.

(** runAllTests, on a schedule of the goroutines it launched: a permutation
    of [launched httpURLs speedURLs pingDomains].  The body does not depend
    on the target lists otherwise, so the same definition serves for other
    lists. *)
Definition runAllTests (env : net.Env) (cfg : config.Config) (sched : list task)
    (w : World) : Saved :=
  let c := fold_left (store env cfg) sched (mkContainers [] [] None None) in
  let httpTestsValues := values (httpTests c) in
  let speedTestsValues := values (speedTests c) in
  let testResults :=
    TestResults.mk httpTestsValues speedTestsValues VPNTest.zero PingTest.zero Time.zero in
  let testResults :=
    match vpnTest c with
    | Some v => TestResults.set_VPNTest v testResults
    | None => testResults
    end in
  let testResults :=
    match pingTest c with
    | Some p => TestResults.set_PingTest p testResults
    | None => testResults
    end in
  SaveResults (Some testResults) (config.ResultsFilePath cfg) config.FilePermissions w.

(** The first ping goroutine of a schedule to do its store. *)
Fixpoint first_ping (sched : list task) : option string :=
  match sched with
  | [] => None
  | PingTask d :: _ => Some d
  | _ :: sched' => first_ping sched'
  end.

(** ** Equality of reports

    Go compares the fields of the result structs with [==]: float64 fields
    as IEEE numbers (so that +0 and -0 are equal), timestamps as instants
    ([Time.Equal]), everything else by value. *)

Definition SpeedTest_equal (a b : SpeedTest.t) : Prop :=
  SpeedTest.URL a = SpeedTest.URL b /\
  F64.eqb (SpeedTest.DownloadMbps a) (SpeedTest.DownloadMbps b) = true /\
  SpeedTest.ElapsedTime a = SpeedTest.ElapsedTime b /\
  SpeedTest.BytesReceived a = SpeedTest.BytesReceived b /\
  SpeedTest.Error a = SpeedTest.Error b.

Definition PingTest_equal (a b : PingTest.t) : Prop :=
  PingTest.URL a = PingTest.URL b /\
  PingTest.Transmitted a = PingTest.Transmitted b /\
  PingTest.Received a = PingTest.Received b /\
  F64.eqb (PingTest.Loss a) (PingTest.Loss b) = true /\
  PingTest.Error a = PingTest.Error b.

Definition TestResults_equal (a b : TestResults.t) : Prop :=
  TestResults.HTTPTests a = TestResults.HTTPTests b /\
  Forall2 SpeedTest_equal (TestResults.SpeedTests a) (TestResults.SpeedTests b) /\
  TestResults.VPNTest a = TestResults.VPNTest b /\
  PingTest_equal (TestResults.PingTest a) (TestResults.PingTest b) /\
  Time.Equal (TestResults.Timestamp a) (TestResults.Timestamp b) = true.

(** Every string of the report is valid UTF-8. *)
Definition HTTPTest_utf8 (h : HTTPTest.t) : bool :=
  utf8.ValidString (HTTPTest.URL h) && utf8.ValidString (HTTPTest.Status h) &&
  utf8.ValidString (HTTPTest.Proto h) && utf8.ValidString (HTTPTest.TLSVersion h) &&
  utf8.ValidString (HTTPTest.CipherSuite h) && utf8.ValidString (HTTPTest.ServerName h) &&
  utf8.ValidString (HTTPTest.Error h).

Definition SpeedTest_utf8 (s : SpeedTest.t) : bool :=
  utf8.ValidString (SpeedTest.URL s) && utf8.ValidString (SpeedTest.Error s).

Definition VPNTest_utf8 (v : VPNTest.t) : bool :=
  utf8.ValidString (VPNTest.Status v) && utf8.ValidString (VPNTest.Error v).

Definition PingTest_utf8 (p : PingTest.t) : bool :=
  utf8.ValidString (PingTest.URL p) && utf8.ValidString (PingTest.Error p).

Definition TestResults_utf8 (r : TestResults.t) : bool :=
  forallb HTTPTest_utf8 (TestResults.HTTPTests r) &&
  forallb SpeedTest_utf8 (TestResults.SpeedTests r) &&
  VPNTest_utf8 (TestResults.VPNTest r) &&
  PingTest_utf8 (TestResults.PingTest r).

(** The file at [p] can be read. *)
Definition readable (w : World) (p : string) : bool :=
  match os.ReadFile (files w) p with
  | inl _ => true
  | inr _ => false
  end.

(** Why PingCheck fails, if it does: the error of NewPinger or of Run. *)
Definition PingCheck_failure (env : net.Env) (domain : string) (cfg : config.Config) :
    option string :=
  match ping.NewPinger (net.resolve env) domain with
  | inr err => Some err
  | inl pinger =>
    snd (ping.Run (PingCheck_pinger pinger cfg) (net.ping_script env domain)
           (PingTest.mk domain 0 0 F64.zero "",
            [LogPing (ping.addr pinger) (ping.ipaddr pinger)]))
  end.

(** ** The statements under test, in the words of the specification *)

(** Round trip: SaveResults followed by LoadResults on the same path returns
    a report equal to the one saved. *)
Definition save_load_roundtrip (r : TestResults.t) (p : string) (perms : Z) (w : World) : Prop :=
  let s := SaveResults (Some r) p perms w in
  exists r' r'',
    saved_results s = Some r' /\
    fst (LoadResults p (saved_world s)) = inl r'' /\
    TestResults_equal r'' r'.

(** The statistics of a ping result are at their zero defaults. *)
Definition no_statistics (r : PingTest.t) : Prop :=
  PingTest.Transmitted r = 0 /\ PingTest.Received r = 0 /\ PingTest.Loss r = F64.zero.

(** The merge of the spec: the sequences are concatenated onto the loaded
    ones, the VPN and ping slots are overwritten by the records given. *)
Definition merge (loaded : TestResults.t) (httpTests : list HTTPTest.t)
    (speedTests : list SpeedTest.t) (vpnTest : option VPNTest.t)
    (pingTest : option PingTest.t) : TestResults.t :=
  TestResults.mk
    (TestResults.HTTPTests loaded ++ httpTests)
    (TestResults.SpeedTests loaded ++ speedTests)
    (match vpnTest with Some v => v | None => TestResults.VPNTest loaded end)
    (match pingTest with Some p => p | None => TestResults.PingTest loaded end)
    (TestResults.Timestamp loaded).

(** Append as the spec words it: load, then merge into the loaded report,
    then save the merged report.  A failure of the load is the failure of
    the composition. *)
Definition AppendResult_spec (httpTests : list HTTPTest.t) (speedTests : list SpeedTest.t)
    (vpnTest : option VPNTest.t) (pingTest : option PingTest.t)
    (filePath : string) (filePermissions : Z) (w : World) : option error * World :=
  match LoadResults filePath w with
  | (inr e, w') => (Some e, w')
  | (inl loaded, w') =>
    let s := SaveResults (Some (merge loaded httpTests speedTests vpnTest pingTest))
               filePath filePermissions w' in
    (saved_err s, saved_world s)
  end.

(** The presence of a key in the document written for a report. *)
Definition has_key (k : string) (d : res os.bytes) : bool :=
  match d with
  | Ok (os.JSONText (JObject ms)) => existsb (fun m => String.eqb k (fst m)) ms
  | _ => false
  end.

(** ** Invariants and projections used in the proofs *)

(** The targets of the HTTP goroutines of a schedule, in schedule order. *)
Definition http_urls (sched : list task) : list string :=
  omap (fun g => match g with HTTPTask u => Some u | _ => None end) sched.

(** The handlers of a pinger are those PingCheck installs. *)
Definition PingCheck_handlers (p : ping.Pinger session) : Prop :=
  ping.OnRecv p = Some PingCheck_OnRecv /\
  ping.OnDuplicateRecv p = Some PingCheck_OnDuplicateRecv /\
  ping.OnFinish p = Some PingCheck_OnFinish.

(** Every reply counted answers a packet that was sent: the counted replies
    and the sequence numbers still awaited are within the packets sent. *)
Definition replies_bounded {St} (p : ping.Pinger St) : Prop :=
  ping.PacketsRecv p + Z.of_nat (List.length (ping.awaitingSequences p)) <= ping.PacketsSent p.

(** ** Concrete worlds and inputs used in the examples *)

Definition noon : Time.t := 63800000000 * 1000000000.

Definition empty_world : World := mkWorld ∅ (fun n => noon + Z.of_nat n) 0.

(** A world whose results file holds something that is not JSON. *)
Definition corrupt_world : World :=
  mkWorld {[ "data.json"%string := os.mkfile os.NotJSON 420 ]} (fun n => noon + Z.of_nat n) 0.

Definition sample_http : HTTPTest.t :=
  HTTPTest.mk "https://www.google.com/" "200 OK" "HTTP/2.0" "772" "4865" "www.google.com" 17000 "".

(** A report saved at [noon - 1], in a file of a world whose clock has moved on. *)
Definition yesterday_report : TestResults.t :=
  TestResults.mk [sample_http] [] VPNTest.zero PingTest.zero (noon - 1).

Definition yesterday_world : World :=
  mkWorld
    {[ "data.json"%string :=
         os.mkfile
           (match json_.MarshalIndent yesterday_report with
            | Ok d => d
            | Fail _ => os.NotJSON
            end) 420 ]}
    (fun n => noon + Z.of_nat n) 0.

(** The report runHTTPTests assembles for one URL that answered. *)
Definition http_only_report : TestResults.t :=
  TestResults.mk [sample_http] [] VPNTest.zero PingTest.zero Time.zero.

(** A URL given on the command line whose last byte, 0xFF, is not UTF-8. *)
Definition latin1_url : string := "http://a/" +:+ String (ascii_of_N 255) EmptyString.

Definition latin1_report : TestResults.t :=
  TestResults.mk [HTTPTest.mk latin1_url "" "" "" "" "" 0 "connection refused"] []
    VPNTest.zero PingTest.zero Time.zero.

(** A network in which nothing answers, except that replies to pings of
    [lossy.example] arrive for two of three packets before the socket
    fails; the first packet to [unreachable.example] cannot be sent. *)
Definition echo (seq : Z) : ping.Packet := ping.mkPacket 24 "192.0.2.1" seq 1000000 64.

Definition quiet_env : net.Env :=
  net.mkEnv
    (fun _ => net.DoError "connection refused")
    (fun _ => net.GetError "connection refused")
    (fun _ => net.VPNGetError "connection refused")
    (fun d =>
       if String.eqb d "nowhere.invalid"
       then inr "lookup nowhere.invalid: no such host"%string
       else inl "192.0.2.1"%string)
    (fun d =>
       if String.eqb d "lossy.example"
       then ping.Session [ping.Reply (echo 0); ping.Tick; ping.Tick; ping.Reply (echo 2)]
              (ping.ReadError "read udp: connection refused")
       else if String.eqb d "unreachable.example"
       then ping.SendError "sendto: network is unreachable"
       else ping.ListenError "socket: permission denied").

(** The wire of a session of five packets: each tick sends the next packet,
    and the replies listed arrive right after their packet was sent. *)
Definition five_packets (answered : list Z) : list ping.wire :=
  flat_map
    (fun seq => (if (0 <? seq) then [ping.Tick] else []) ++
                (if existsb (Z.eqb seq) answered then [ping.Reply (echo seq)] else []))
    [0; 1; 2; 3; 4].

(** A network in which [all.example] answers all five pings, [some.example]
    answers three of them and then the timeout ends the session, and HTTP
    requests time out. *)
Definition scenario_env : net.Env :=
  net.mkEnv
    (fun _ => net.DoError "context deadline exceeded")
    (fun _ => net.GetError "context deadline exceeded")
    (fun _ => net.VPNGetError "context deadline exceeded")
    (fun _ => inl "192.0.2.1"%string)
    (fun d =>
       if String.eqb d "all.example"
       then ping.Session (five_packets [0; 1; 2; 3; 4]) ping.Stopped
       else ping.Session (five_packets [0; 2; 3]) ping.Stopped).

(** ** Further definitions: the rest of utils and main *)

(** [Unwrap] of the [TestError] embedded in each error type. *)
Definition error_TestError (e : error) : TestError :=
  match e with
  | NetworkError t | TimeoutError t | ValidationError t | ParseError t => t
  end.

Definition Unwrap (e : error) : option cause := Err (error_TestError e).

(** [Tests], the earlier format of data.json: both records, always written. *)
Module Tests.
Record t := mk {
  VPNTest : VPNTest.t;
  PingTest : PingTest.t
}.
End Tests.

Definition Encode_Tests (x : Tests.t) : res json :=
  Encode.struct_
    [ Encode.field "vpn_test" (Encode.VPNTest_ (Tests.VPNTest x));
      Encode.field "ping_test" (Encode.PingTest_ (Tests.PingTest x)) ].

(** What is read back for a value that was written: every string with
    its bytes that are not UTF-8 replaced. *)
Definition HTTPTest_sanitize (h : HTTPTest.t) : HTTPTest.t :=
  HTTPTest.mk
    (utf8.toValidUTF8 (HTTPTest.URL h)) (utf8.toValidUTF8 (HTTPTest.Status h))
    (utf8.toValidUTF8 (HTTPTest.Proto h)) (utf8.toValidUTF8 (HTTPTest.TLSVersion h))
    (utf8.toValidUTF8 (HTTPTest.CipherSuite h)) (utf8.toValidUTF8 (HTTPTest.ServerName h))
    (HTTPTest.ResponseLength h) (utf8.toValidUTF8 (HTTPTest.Error h)).

Definition SpeedTest_sanitize (s : SpeedTest.t) : SpeedTest.t :=
  SpeedTest.mk (utf8.toValidUTF8 (SpeedTest.URL s)) (SpeedTest.DownloadMbps s)
    (SpeedTest.ElapsedTime s) (SpeedTest.BytesReceived s)
    (utf8.toValidUTF8 (SpeedTest.Error s)).

Definition VPNTest_sanitize (v : VPNTest.t) : VPNTest.t :=
  VPNTest.mk (utf8.toValidUTF8 (VPNTest.Status v)) (utf8.toValidUTF8 (VPNTest.Error v)).

Definition PingTest_sanitize (p : PingTest.t) : PingTest.t :=
  PingTest.mk (utf8.toValidUTF8 (PingTest.URL p)) (PingTest.Transmitted p)
    (PingTest.Received p) (PingTest.Loss p) (utf8.toValidUTF8 (PingTest.Error p)).

Definition TestResults_sanitize (r : TestResults.t) : TestResults.t :=
  TestResults.mk
    (map HTTPTest_sanitize (TestResults.HTTPTests r))
    (map SpeedTest_sanitize (TestResults.SpeedTests r))
    (VPNTest_sanitize (TestResults.VPNTest r))
    (PingTest_sanitize (TestResults.PingTest r))
    (TestResults.Timestamp r).

(** A report holds a float64 that JSON cannot express. *)
Definition has_unsupported_float (r : TestResults.t) : bool :=
  existsb (fun s => F64.is_inf_or_nan (SpeedTest.DownloadMbps s)) (TestResults.SpeedTests r) ||
  F64.is_inf_or_nan (PingTest.Loss (TestResults.PingTest r)).

(** The targets of the speed goroutines of a schedule, in schedule order. *)
Definition speed_urls (sched : list task) : list string :=
  omap (fun g => match g with SpeedTask u => Some u | _ => None end) sched.

(** [main]: with arguments, HTTP tests on them; without, all default tests.
    [sched1] and [sched2] are the schedules of the goroutines of the one and
    of the other. *)
Definition main (args : list string) (env : net.Env) (sched1 : list (nat * string))
    (sched2 : list task) (w : World) : Saved :=
  let cfg := config.New in
  if (0 <? List.length args)%nat
  then runHTTPTests env args cfg sched1 w
  else runAllTests env cfg sched2 w.

(** The names of the members of a results document, from the tags of
    [TestResults]. *)
Definition TestResults_names : list string :=
  ["http_tests"; "speed_tests"; "vpn_test"; "ping_test"; "timestamp"]%string.

(** No more packets were sent than [Count] asks for, and no counter is
    negative. *)
Definition sent_bounded {St} (p : ping.Pinger St) : Prop :=
  0 <= ping.PacketsRecv p /\ 0 <= ping.PacketsSent p /\ ping.PacketsSent p <= ping.Count p.

(** A network in which the speed test of [https://google.com] completes
    within the resolution of the clock. *)
Definition instant_env : net.Env :=
  net.mkEnv
    (fun _ => net.DoError "connection refused")
    (fun u => if String.eqb u "https://google.com" then net.Downloaded "ok" 0
              else net.GetError "connection refused")
    (fun _ => net.VPNGetError "connection refused")
    (fun _ => inl "192.0.2.1"%string)
    (fun _ => ping.ListenError "socket: permission denied").

(** * Properties *)

(** ** The result store *)

Lemma SaveResults_some (r : TestResults.t) (p : string) (perm : Z) (w : World) :
  saved_results (SaveResults (Some r) p perm w) =
  Some (if Time.IsZero (TestResults.Timestamp r)
        then TestResults.set_Timestamp (clock w (ticks w)) r
        else r).
Proof.
  unfold SaveResults, time_Now.
  destruct (Time.IsZero (TestResults.Timestamp r));
    (destruct (json_.MarshalIndent _); [|reflexivity]);
    destruct (os.WriteFile _ _ _ _) as [fs [e|]]; reflexivity.
Qed.

(** C8. SaveResults on a nil report returns the validation error
    "results cannot be nil" and leaves the world, hence every file, as it
    was: nothing is serialized and nothing is written. *)
Theorem SaveResults_nil_is_rejected (p : string) (perm : Z) (w : World) :
  let s := SaveResults None p perm w in
  saved_err s = Some (NewValidationError "Storage" "results cannot be nil") /\
  saved_world s = w /\
  files (saved_world s) !! p = files w !! p.
Proof. cbn. auto. Qed.

(** C5. LoadResults on a path at which no file exists returns no error but a
    report whose HTTP and speed sequences are empty, whose VPN and ping
    records are the zero records, and whose timestamp is the reading of the
    clock at the call, which is not the zero time. *)
Theorem LoadResults_missing_file (p : string) (w : World) :
  files w !! p = None ->
  Time.IsZero (clock w (ticks w)) = false ->
  exists r,
    fst (LoadResults p w) = inl r /\
    TestResults.HTTPTests r = [] /\
    TestResults.SpeedTests r = [] /\
    TestResults.VPNTest r = VPNTest.zero /\
    TestResults.PingTest r = PingTest.zero /\
    TestResults.Timestamp r = clock w (ticks w) /\
    Time.IsZero (TestResults.Timestamp r) = false.
Proof.
  intros Hnone Hclock.
  exists (TestResults.set_Timestamp (clock w (ticks w)) TestResults.zero).
  unfold LoadResults, os.ReadFile. rewrite Hnone.
  destruct (String.eqb p ""); cbn; auto 10.
Qed.

Lemma LoadResults_missing_file_witness :
  exists r,
    fst (LoadResults "data.json" empty_world) = inl r /\
    TestResults.HTTPTests r = [] /\
    TestResults.SpeedTests r = [] /\
    TestResults.VPNTest r = VPNTest.zero /\
    TestResults.PingTest r = PingTest.zero /\
    TestResults.Timestamp r = noon /\
    Time.IsZero (TestResults.Timestamp r) = false.
Proof.
  apply (LoadResults_missing_file "data.json" empty_world); reflexivity.
Defined.

(** C9. SaveResults changes nothing of the report it is given but the
    timestamp, which it sets to the reading of the clock exactly when it is
    the zero time; the document it writes is the encoding of that report. *)
Theorem SaveResults_touches_timestamp_only (r : TestResults.t) (p : string) (perm : Z)
    (w : World) :
  let s := SaveResults (Some r) p perm w in
  exists r',
    saved_results s = Some r' /\
    TestResults.HTTPTests r' = TestResults.HTTPTests r /\
    TestResults.SpeedTests r' = TestResults.SpeedTests r /\
    TestResults.VPNTest r' = TestResults.VPNTest r /\
    TestResults.PingTest r' = TestResults.PingTest r /\
    TestResults.Timestamp r' =
      (if Time.IsZero (TestResults.Timestamp r) then clock w (ticks w)
       else TestResults.Timestamp r) /\
    match saved_err s with
    | None =>
      exists f, files (saved_world s) !! p = Some f /\
                json_.MarshalIndent r' = Ok (os.data f)
    | Some _ => True
    end.
Proof.
  cbn zeta. rewrite SaveResults_some.
  eexists; split; [reflexivity|].
  unfold SaveResults, time_Now.
  destruct (Time.IsZero (TestResults.Timestamp r)) eqn:Hz; cbn [TestResults.set_Timestamp
    TestResults.HTTPTests TestResults.SpeedTests TestResults.VPNTest TestResults.PingTest
    TestResults.Timestamp];
    (repeat (split; [reflexivity|]));
    (destruct (json_.MarshalIndent _) as [d|e] eqn:Hm; [|exact I]);
    unfold os.WriteFile; cbn [files];
    (destruct (String.eqb p ""); [exact I|]);
    (destruct (files w !! p) as [f|] eqn:Hf;
      [destruct (os.may_write f); [|exact I]|]);
    cbn; eexists; (split; [apply lookup_insert_eq|]); reflexivity.
Qed.

(** ** The codec: what is written can be read back *)

Lemma toValidUTF8_valid_upto (n : nat) : forall s,
  (String.length s <= n)%nat -> utf8.ValidString s = true -> utf8.toValidUTF8 s = s.
Proof.
  induction n as [|n IH]; intros s Hlen Hv.
  - destruct s; [reflexivity|cbn in Hlen; lia].
  - destruct s as [|a s1]; [reflexivity|].
    cbn [utf8.ValidString utf8.toValidUTF8] in *.
    destruct (utf8.lead_len a) as [|[|[|[|[|k]]]]].
    + destruct s1; discriminate.
    + f_equal. apply IH; [cbn in Hlen; lia|assumption].
    + destruct s1 as [|b s2]; [discriminate|].
      apply andb_true_iff in Hv as [Hb Hv]. rewrite Hb.
      do 2 f_equal. apply IH; [cbn in Hlen; lia|assumption].
    + destruct s1 as [|b [|c s3]]; try discriminate.
      apply andb_true_iff in Hv as [Hb Hv]. rewrite Hb.
      do 3 f_equal. apply IH; [cbn in Hlen; lia|assumption].
    + destruct s1 as [|b [|c [|d s4]]]; try discriminate.
      apply andb_true_iff in Hv as [Hb Hv]. rewrite Hb.
      do 4 f_equal. apply IH; [cbn in Hlen; lia|assumption].
    + destruct s1; discriminate.
Qed.

(** The encoder leaves valid UTF-8 as it is. *)
Lemma toValidUTF8_valid (s : string) :
  utf8.ValidString s = true -> utf8.toValidUTF8 s = s.
Proof. apply (toValidUTF8_valid_upto (String.length s)). lia. Qed.

Lemma string_valid (s : string) :
  utf8.ValidString s = true -> Encode.string_ s = Ok (JString s).
Proof. intros H. unfold Encode.string_. now rewrite toValidUTF8_valid. Qed.

Ltac split_andb :=
  repeat match goal with
  | H : _ && _ = true |- _ => apply andb_true_iff in H; destruct H
  end.

(** Decides the key comparisons of the decoder on the keys of a document
    at hand. *)
Ltac eval_keys :=
  repeat match goal with
  | |- context [Decode.equalFold ?k ?n] =>
    let b := eval vm_compute in (Decode.equalFold k n) in
    lazymatch b with
    | true => change (Decode.equalFold k n) with true
    | false => change (Decode.equalFold k n) with false
    end
  end.

Lemma F64_eqb_refl (f : float64) : F64.is_inf_or_nan f = false -> F64.eqb f f = true.
Proof.
  destruct f as [s|s| |s m e]; cbn; try discriminate; try reflexivity.
  intros _. unfold F64.eqb, SFeqb, SFcompare.
  rewrite Z.compare_refl, Pos.compare_cont_refl. destruct s; reflexivity.
Qed.

Lemma float_ok (f : float64) (j : json) :
  Encode.float_ f = Ok j -> j = JFloat f /\ F64.is_inf_or_nan f = false.
Proof.
  unfold Encode.float_. destruct (F64.is_inf_or_nan f); [discriminate|].
  intros [= <-]. auto.
Qed.

Lemma HTTPTest_roundtrip (h : HTTPTest.t) :
  HTTPTest_utf8 h = true ->
  exists j, Encode.HTTPTest_ h = Ok j /\ Decode.HTTPTest_ j HTTPTest.zero = Ok h.
Proof.
  destruct h as [url status proto tls cipher server n err].
  unfold HTTPTest_utf8; cbn [HTTPTest.URL HTTPTest.Status HTTPTest.Proto HTTPTest.TLSVersion
    HTTPTest.CipherSuite HTTPTest.ServerName HTTPTest.ResponseLength HTTPTest.Error].
  intros H. split_andb.
  unfold Encode.HTTPTest_; cbn [HTTPTest.URL HTTPTest.Status HTTPTest.Proto HTTPTest.TLSVersion
    HTTPTest.CipherSuite HTTPTest.ServerName HTTPTest.ResponseLength HTTPTest.Error].
  rewrite !string_valid by assumption.
  unfold Encode.empty_int.
  destruct (n =? 0) eqn:Hn; [apply Z.eqb_eq in Hn; subst n|];
  destruct proto, tls, cipher, server, err;
  (eexists; split; [reflexivity|reflexivity]).
Qed.

Lemma SpeedTest_roundtrip (s : SpeedTest.t) (j : json) :
  SpeedTest_utf8 s = true ->
  Encode.SpeedTest_ s = Ok j ->
  Decode.SpeedTest_ j SpeedTest.zero = Ok s /\ SpeedTest_equal s s.
Proof.
  destruct s as [url mbps elapsed bytes err].
  unfold SpeedTest_utf8, Encode.SpeedTest_, SpeedTest_equal;
    cbn [SpeedTest.URL SpeedTest.DownloadMbps SpeedTest.ElapsedTime
         SpeedTest.BytesReceived SpeedTest.Error].
  intros H. split_andb. rewrite !string_valid by assumption.
  destruct (Encode.float_ mbps) as [jf|e] eqn:Hf; [|destruct err; discriminate].
  apply float_ok in Hf as [-> Hfin].
  destruct err; intros [= <-]; (split; [reflexivity|]);
    repeat split; auto using F64_eqb_refl.
Qed.

Lemma VPNTest_roundtrip (v : VPNTest.t) :
  VPNTest_utf8 v = true ->
  exists j, Encode.VPNTest_ v = Ok j /\ Decode.VPNTest_ j VPNTest.zero = Ok v.
Proof.
  destruct v as [status err].
  unfold VPNTest_utf8, Encode.VPNTest_; cbn [VPNTest.Status VPNTest.Error].
  intros H. split_andb. rewrite !string_valid by assumption.
  destruct err; (eexists; split; reflexivity).
Qed.

(** A loss of -0 is left out as empty and read back as +0, which Go's [==]
    does not tell apart. *)
Lemma PingTest_roundtrip (p : PingTest.t) (j : json) :
  PingTest_utf8 p = true ->
  Encode.PingTest_ p = Ok j ->
  exists p', Decode.PingTest_ j PingTest.zero = Ok p' /\ PingTest_equal p' p.
Proof.
  destruct p as [url sent recv loss err].
  unfold PingTest_utf8, Encode.PingTest_, PingTest_equal;
    cbn [PingTest.URL PingTest.Transmitted PingTest.Received PingTest.Loss PingTest.Error].
  intros H. split_andb. rewrite !string_valid by assumption.
  unfold Encode.empty_int, Encode.empty_float.
  destruct (sent =? 0) eqn:Hs; [apply Z.eqb_eq in Hs; subst sent|];
  (destruct (recv =? 0) eqn:Hr; [apply Z.eqb_eq in Hr; subst recv|]);
  (destruct loss as [sg|sg| |sg m e]; cbn [F64.eqb SFeqb SFcompare F64.zero];
   try (destruct sg); destruct url, err; try discriminate; intros [= <-];
   (eexists; split; [reflexivity|]);
   cbn [PingTest.URL PingTest.Transmitted PingTest.Received PingTest.Loss PingTest.Error];
   repeat split; try reflexivity;
   apply F64_eqb_refl; reflexivity).
Qed.

Lemma HTTPTests_roundtrip (l : list HTTPTest.t) :
  forallb HTTPTest_utf8 l = true ->
  exists js, res_mapM Encode.HTTPTest_ l = Ok js /\
             res_mapM (fun j => Decode.HTTPTest_ j HTTPTest.zero) js = Ok l.
Proof.
  induction l as [|h l IH]; cbn [forallb res_mapM]; intros H.
  - exists []. split; reflexivity.
  - split_andb.
    destruct (HTTPTest_roundtrip h) as (j & Hj & Hd); [assumption|].
    destruct IH as (js & Hjs & Hds); [assumption|].
    exists (j :: js). rewrite Hj, Hjs. cbn [res_bind res_mapM]. rewrite Hd, Hds. auto.
Qed.

Lemma SpeedTests_roundtrip (l : list SpeedTest.t) (js : list json) :
  forallb SpeedTest_utf8 l = true ->
  res_mapM Encode.SpeedTest_ l = Ok js ->
  res_mapM (fun j => Decode.SpeedTest_ j SpeedTest.zero) js = Ok l /\
  Forall2 SpeedTest_equal l l.
Proof.
  revert js. induction l as [|s l IH]; cbn [forallb res_mapM]; intros js H.
  - intros [= <-]. split; [reflexivity|constructor].
  - split_andb.
    destruct (Encode.SpeedTest_ s) as [j|] eqn:Hj; [|discriminate].
    destruct (res_mapM Encode.SpeedTest_ l) as [js'|] eqn:Hjs; [|discriminate].
    cbn [res_bind]. intros [= <-].
    destruct (SpeedTest_roundtrip s j) as [Hd Heq]; [assumption..|].
    destruct (IH js') as [Hds Heqs]; [assumption|reflexivity|].
    cbn [res_mapM]. rewrite Hd, Hds. split; [reflexivity|constructor; assumption].
Qed.

Lemma TestResults_roundtrip (r : TestResults.t) (j : json) :
  TestResults_utf8 r = true ->
  Encode.TestResults_ r = Ok j ->
  exists r', Decode.TestResults_ j TestResults.zero = Ok r' /\ TestResults_equal r' r.
Proof.
  destruct r as [https speeds vpn ping ts].
  unfold TestResults_utf8, Encode.TestResults_;
    cbn [TestResults.HTTPTests TestResults.SpeedTests TestResults.VPNTest
         TestResults.PingTest TestResults.Timestamp].
  intros H. split_andb.
  destruct (HTTPTests_roundtrip https) as (jh & Hjh & Hdh); [assumption|].
  destruct (VPNTest_roundtrip vpn) as (jv & Hjv & Hdv); [assumption|].
  unfold Encode.slice_, Encode.struct_, Encode.empty_struct, Encode.time_.
  rewrite Hjh, Hjv.
  destruct (res_mapM Encode.SpeedTest_ speeds) as [jsp|] eqn:Hjs;
    [|destruct https, speeds; discriminate].
  destruct (Encode.PingTest_ ping) as [jp|] eqn:Hjp;
    [|destruct https, speeds; discriminate].
  destruct (Time.rfc3339_ok ts);
    [|destruct https, speeds; discriminate].
  destruct (SpeedTests_roundtrip speeds jsp) as [Hds Heqs]; [assumption..|].
  destruct (PingTest_roundtrip ping jp) as (ping' & Hdp & Heqp); [assumption..|].
  intros Henc.
  exists (TestResults.mk https speeds vpn ping' ts).
  split.
  - destruct https as [|h https]; destruct speeds as [|s speeds];
      cbn [Encode.struct_members Encode.field_omitempty Encode.field Encode.empty_slice
           List.length Nat.eqb res_bind app] in Henc;
      injection Henc as <-;
      unfold Decode.TestResults_, Decode.struct_, TestResults.zero;
      repeat (progress
        (cbn [Decode.members Decode.TestResults_field res_bind Decode.slice_ Decode.time_];
         eval_keys; rewrite ?Hdh, ?Hds, ?Hdv, ?Hdp));
      reflexivity.
  - unfold TestResults_equal;
      cbn [TestResults.HTTPTests TestResults.SpeedTests TestResults.VPNTest
           TestResults.PingTest TestResults.Timestamp].
    split; [reflexivity|]. split; [assumption|]. split; [reflexivity|].
    split; [assumption|]. apply Z.eqb_refl.
Qed.

(** What [omitempty] does on the fields of [TestResults]: the two sequences
    are left out exactly when empty; the two records and the timestamp are
    always written. *)
Lemma TestResults_keys (r : TestResults.t) (d : os.bytes) :
  json_.MarshalIndent r = Ok d ->
  has_key "http_tests" (Ok d) = negb (Encode.empty_slice (TestResults.HTTPTests r)) /\
  has_key "speed_tests" (Ok d) = negb (Encode.empty_slice (TestResults.SpeedTests r)) /\
  has_key "vpn_test" (Ok d) = true /\
  has_key "ping_test" (Ok d) = true /\
  has_key "timestamp" (Ok d) = true.
Proof.
  unfold json_.MarshalIndent, Encode.TestResults_, Encode.struct_, Encode.empty_struct.
  destruct r as [https speeds vpn ping ts];
    cbn [TestResults.HTTPTests TestResults.SpeedTests TestResults.VPNTest
         TestResults.PingTest TestResults.Timestamp].
  destruct (Encode.VPNTest_ vpn) as [jv|], (Encode.PingTest_ ping) as [jp|],
    (Encode.time_ ts) as [jt|];
    destruct https as [|h https], speeds as [|s speeds];
    cbn [Encode.struct_members Encode.field_omitempty Encode.field Encode.empty_slice
         List.length Nat.eqb res_bind app];
    repeat match goal with
    | |- context [Encode.slice_ ?f ?l] =>
      destruct (Encode.slice_ f l);
      cbn [Encode.struct_members Encode.field_omitempty Encode.field res_bind app]
    end;
    try discriminate; intros [= <-]; cbn; auto.
Qed.

(** C3. Evaluation at the report of an HTTP-only pass, whose VPN and ping
    records hold their zero values: the document written has the members
    [vpn_test] (with an empty status) and [ping_test] (an empty object); they
    are not omitted.  [speed_tests], which is empty, is omitted, and
    [timestamp] is present. *)
Theorem empty_records_are_written :
  json_.MarshalIndent (TestResults.set_Timestamp noon http_only_report) =
  Ok (os.JSONText
        (JObject
           [ ("http_tests"%string,
              JArray
                [ JObject
                    [ ("url"%string, JString "https://www.google.com/");
                      ("status"%string, JString "200 OK");
                      ("proto"%string, JString "HTTP/2.0");
                      ("tls_version"%string, JString "772");
                      ("cipher_suite"%string, JString "4865");
                      ("server_name"%string, JString "www.google.com");
                      ("response_length"%string, JInt 17000) ] ]);
             ("vpn_test"%string, JObject [ ("status"%string, JString "") ]);
             ("ping_test"%string, JObject []);
             ("timestamp"%string, JTime noon) ])).
Proof. vm_compute. reflexivity. Qed.

(** ** Save, then load *)

Lemma SaveResults_ok (r : TestResults.t) (p : string) (perm : Z) (w : World) :
  saved_err (SaveResults (Some r) p perm w) = None ->
  exists r1 j f,
    saved_results (SaveResults (Some r) p perm w) = Some r1 /\
    r1 = (if Time.IsZero (TestResults.Timestamp r)
          then TestResults.set_Timestamp (clock w (ticks w)) r else r) /\
    Encode.TestResults_ r1 = Ok j /\
    files (saved_world (SaveResults (Some r) p perm w)) !! p = Some f /\
    os.data f = os.JSONText j /\
    String.eqb p "" = false.
Proof.
  rewrite SaveResults_some.
  unfold SaveResults, time_Now, json_.MarshalIndent.
  set (r1 := if Time.IsZero (TestResults.Timestamp r) then _ else r).
  assert (Hr1 : (if Time.IsZero (TestResults.Timestamp r)
         then let '(now, w') := (clock w (ticks w), mkWorld (files w) (clock w) (S (ticks w))) in
              (TestResults.set_Timestamp now r, w')
         else (r, w)) =
         (r1, if Time.IsZero (TestResults.Timestamp r)
              then mkWorld (files w) (clock w) (S (ticks w)) else w)).
  { subst r1. destruct (Time.IsZero _); reflexivity. }
  rewrite Hr1. clear Hr1.
  destruct (Encode.TestResults_ r1) as [j|e] eqn:Hj; cbn [res_bind]; [|discriminate].
  unfold os.WriteFile.
  assert (Hfiles : files (if Time.IsZero (TestResults.Timestamp r)
              then mkWorld (files w) (clock w) (S (ticks w)) else w) = files w).
  { destruct (Time.IsZero _); reflexivity. }
  rewrite Hfiles.
  destruct (String.eqb p "") eqn:Hp; [discriminate|].
  destruct (files w !! p) as [f|] eqn:Hf.
  - destruct (os.may_write f); [|discriminate].
    intros _. exists r1, j, (os.mkfile (os.JSONText j) (os.mode f)).
    cbn. rewrite lookup_insert_eq. auto 10.
  - intros _. exists r1, j, (os.mkfile (os.JSONText j) perm).
    cbn. rewrite lookup_insert_eq. auto 10.
Qed.

(** C2, amended.  For a report whose strings are all valid UTF-8: when
    SaveResults returns no error and the file can then be read, LoadResults
    on the same path returns no error and a report equal to the one saved
    (the report as SaveResults left it, with its timestamp assigned). *)
Theorem save_then_load (r : TestResults.t) (p : string) (perm : Z) (w : World) :
  TestResults_utf8 r = true ->
  saved_err (SaveResults (Some r) p perm w) = None ->
  readable (saved_world (SaveResults (Some r) p perm w)) p = true ->
  save_load_roundtrip r p perm w.
Proof.
  intros Hutf Hok Hread.
  destruct (SaveResults_ok r p perm w Hok) as (r1 & j & f & Hres & Hr1 & Hj & Hf & Hd & Hp).
  assert (Hutf1 : TestResults_utf8 r1 = true).
  { subst r1. destruct (Time.IsZero _); assumption. }
  destruct (TestResults_roundtrip r1 j Hutf1 Hj) as (r2 & Hdec & Heq).
  unfold save_load_roundtrip. cbn zeta.
  exists r1, r2. split; [assumption|]. split; [|assumption].
  unfold readable in Hread. unfold LoadResults.
  unfold os.ReadFile in *. rewrite Hp, Hf in *.
  destruct (os.may_read f); [|discriminate].
  rewrite Hd. cbn [json_.Unmarshal]. rewrite Hdec. reflexivity.
Qed.

Lemma save_then_load_witness :
  save_load_roundtrip yesterday_report "data.json" config.FilePermissions empty_world.
Proof.
  apply save_then_load; vm_compute; reflexivity.
Defined.

(** C2 as stated fails: the report of a pass over a URL that holds the byte
    0xFF is saved without error and loaded without error, and the URL read
    back holds U+FFFD in its place. *)
Lemma save_load_roundtrip_fails :
  ~ save_load_roundtrip latin1_report "data.json" config.FilePermissions empty_world.
Proof.
  unfold save_load_roundtrip. cbn zeta.
  intros (r' & r'' & Hs & Hl & Heq).
  vm_compute in Hs. injection Hs as <-.
  vm_compute in Hl. injection Hl as <-.
  destruct Heq as [Hhttp _]. vm_compute in Hhttp. discriminate.
Qed.

(** ** Append *)

Lemma merge_as_coded (results : TestResults.t) (httpTests : list HTTPTest.t)
    (speedTests : list SpeedTest.t) (vpnTest : option VPNTest.t)
    (pingTest : option PingTest.t) :
  (let results :=
    if (0 <? List.length httpTests)%nat
    then TestResults.set_HTTPTests (TestResults.HTTPTests results ++ httpTests) results
    else results in
  let results :=
    if (0 <? List.length speedTests)%nat
    then TestResults.set_SpeedTests (TestResults.SpeedTests results ++ speedTests) results
    else results in
  let results :=
    match vpnTest with
    | Some v => TestResults.set_VPNTest v results
    | None => results
    end in
  match pingTest with
  | Some p => TestResults.set_PingTest p results
  | None => results
  end) = merge results httpTests speedTests vpnTest pingTest.
Proof.
  destruct results as [h s v p t], httpTests, speedTests, vpnTest, pingTest;
    unfold merge, TestResults.set_HTTPTests, TestResults.set_SpeedTests,
      TestResults.set_VPNTest, TestResults.set_PingTest; cbn; rewrite ?app_nil_r; reflexivity.
Qed.

(** C4, amended.  Whenever LoadResults returns a report (the file was read
    and parsed, or it does not exist yet), AppendResult is LoadResults, then
    the merge into the loaded report (sequences concatenated onto the loaded
    ones, the VPN and ping slots overwritten by the records given, a nil
    record leaving its slot as loaded), then the merged report stamped with
    the current time, then SaveResults on it. *)
Theorem AppendResult_composition (httpTests : list HTTPTest.t) (speedTests : list SpeedTest.t)
    (vpnTest : option VPNTest.t) (pingTest : option PingTest.t)
    (p : string) (perm : Z) (w : World) (loaded : TestResults.t) (w1 : World) :
  LoadResults p w = (inl loaded, w1) ->
  AppendResult httpTests speedTests vpnTest pingTest p perm w =
  let '(now, w2) := time_Now w1 in
  let s := SaveResults
             (Some (TestResults.set_Timestamp now
                      (merge loaded httpTests speedTests vpnTest pingTest)))
             p perm w2 in
  (saved_err s, saved_world s).
Proof.
  intros Hload. unfold AppendResult. rewrite Hload. cbn [time_Now].
  rewrite <- merge_as_coded. reflexivity.
Qed.

Lemma AppendResult_composition_witness :
  AppendResult [sample_http] [] None None "data.json" config.FilePermissions yesterday_world =
  let '(now, w2) := time_Now yesterday_world in
  let s := SaveResults
             (Some (TestResults.set_Timestamp now
                      (merge yesterday_report [sample_http] [] None None)))
             "data.json" config.FilePermissions w2 in
  (saved_err s, saved_world s).
Proof.
  apply (AppendResult_composition [sample_http] [] None None "data.json"
           config.FilePermissions yesterday_world yesterday_report yesterday_world).
  unfold LoadResults.
  replace (os.ReadFile (files yesterday_world) "data.json")
    with (@inl os.bytes os_error
            (match json_.MarshalIndent yesterday_report with
             | Ok d => d
             | Fail _ => os.NotJSON
             end)) by (vm_compute; reflexivity).
  replace (json_.Unmarshal _ TestResults.zero) with (Ok yesterday_report)
    by (vm_compute; reflexivity).
  reflexivity.
Defined.

(** C4 as stated fails.  On a file saved earlier, appending nothing writes
    a different file than load, merge, save does: the timestamp written is
    the current time, not the loaded one. *)
Lemma AppendResult_is_not_the_composition :
  AppendResult [] [] None None "data.json" config.FilePermissions yesterday_world <>
    AppendResult_spec [] [] None None "data.json" config.FilePermissions yesterday_world.
Proof.
  intros H.
  apply (f_equal (fun x => files (snd x) !! "data.json"%string)) in H.
  vm_compute in H. discriminate.
Qed.

(** ** The ping probe *)

Lemma filter_inflight_shorter (seq : Z) (l : list Z) :
  existsb (Z.eqb seq) l = true ->
  (List.length (List.filter (fun q => negb (Z.eqb seq q)) l) < List.length l)%nat.
Proof.
  induction l as [|a l IH]; cbn [existsb List.filter List.length]; [discriminate|].
  destruct (Z.eqb seq a) eqn:Ha; cbn [negb orb List.length].
  - intros _. pose proof (List.filter_length_le (fun q => negb (Z.eqb seq q)) l). lia.
  - intros H. specialize (IH H). lia.
Qed.

Lemma step_bounded {St} (p : ping.Pinger St) (w : ping.wire) (s : St) :
  replies_bounded p -> replies_bounded (fst (ping.step p w s)).
Proof.
  unfold replies_bounded, ping.step, ping.processPacket, ping.inflight.
  intros H. destruct w as [|pkt].
  - destruct ((0 <? ping.Count p) && (ping.Count p <=? ping.PacketsSent p));
      cbn [fst ping.sendICMP ping.PacketsRecv ping.PacketsSent ping.awaitingSequences
           List.length]; lia.
  - destruct (existsb (Z.eqb (ping.Seq pkt)) (ping.awaitingSequences p)) eqn:Hin;
      cbn [fst ping.PacketsRecv ping.PacketsSent ping.awaitingSequences]; [|lia].
    apply filter_inflight_shorter in Hin. lia.
Qed.

Lemma step_handlers (p : ping.Pinger session) (w : ping.wire) (s : session) :
  PingCheck_handlers p ->
  PingCheck_handlers (fst (ping.step p w s)) /\ fst (snd (ping.step p w s)) = fst s.
Proof.
  unfold PingCheck_handlers, ping.step, ping.processPacket.
  intros (Hr & Hd & Hf). destruct w as [|pkt].
  - destruct ((0 <? ping.Count p) && (ping.Count p <=? ping.PacketsSent p)); cbn; auto.
  - destruct (ping.inflight p (ping.Seq pkt)); cbn [fst snd ping.OnRecv ping.OnDuplicateRecv
      ping.OnFinish]; rewrite ?Hr, ?Hd; cbn; auto.
Qed.

(** Through the echo loop the handlers stay installed, the replies stay
    bounded, and [result] is not written. *)
Lemma runLoop_invariant (ws : list ping.wire) : forall (p : ping.Pinger session) (s : session),
  PingCheck_handlers p -> replies_bounded p ->
  let '(p', s', _) := ping.runLoop p ws s in
  PingCheck_handlers p' /\ replies_bounded p' /\ fst s' = fst s.
Proof.
  induction ws as [|w ws IH]; intros p s Hh Hb; cbn [ping.runLoop]; [auto|].
  pose proof (step_bounded p w s Hb) as Hb'.
  destruct (step_handlers p w s Hh) as [Hh' Hs'].
  destruct (ping.step p w s) as [p' s']. cbn [fst snd] in *.
  destruct (ping.count_reached p'); [auto|].
  specialize (IH p' s' Hh' Hb').
  destruct (ping.runLoop p' ws s') as [[p'' s''] c].
  destruct IH as (? & ? & ?). split; [assumption|]. split; [assumption|congruence].
Qed.

(** What PingCheck returns: on a failure the initial result with the error,
    otherwise the statistics of the pinger at the end of its echo loop. *)
Lemma PingCheck_cases (env : net.Env) (domain : string) (cfg : config.Config) :
  match PingCheck_failure env domain cfg with
  | Some err => PingCheck env domain cfg = PingTest.mk domain 0 0 F64.zero err
  | None =>
    exists pinger ws e,
      ping.NewPinger (S := session) (net.resolve env) domain = inl pinger /\
      net.ping_script env domain = ping.Session ws e /\
      let p' :=
        fst (fst (ping.runLoop (ping.sendICMP (PingCheck_pinger pinger cfg)) ws
                    (PingTest.mk domain 0 0 F64.zero "",
                     [LogPing (ping.addr pinger) (ping.ipaddr pinger)]))) in
      replies_bounded p' /\
      PingCheck env domain cfg =
        PingTest.mk domain (ping.PacketsSent p') (ping.PacketsRecv p')
          (ping.stat_PacketLoss (ping.GetStatistics p')) ""
  end.
Proof.
  unfold PingCheck_failure, PingCheck, PingCheck_session.
  destruct (ping.NewPinger (net.resolve env) domain) as [pinger|err] eqn:Hnew; [|reflexivity].
  destruct (net.ping_script env domain) as [err|err|ws e]; [reflexivity|reflexivity|].
  assert (Hinit : ping.PacketsSent pinger = 0 /\ ping.PacketsRecv pinger = 0 /\
                  ping.awaitingSequences pinger = []).
  { unfold ping.NewPinger in Hnew. destruct (net.resolve env domain); [|discriminate].
    injection Hnew as <-. auto. }
  destruct Hinit as (Hsent & Hrecv & Haw).
  cbn [ping.Run].
  change (ping.addr (PingCheck_pinger pinger cfg)) with (ping.addr pinger).
  change (ping.ipaddr (PingCheck_pinger pinger cfg)) with (ping.ipaddr pinger).
  pose proof (runLoop_invariant ws (ping.sendICMP (PingCheck_pinger pinger cfg))
                (PingTest.mk domain 0 0 F64.zero "",
                 [LogPing (ping.addr pinger) (ping.ipaddr pinger)])) as Hinv.
  destruct (ping.runLoop _ ws _) as [[p' [r' out']] counted] eqn:Hrl.
  destruct Hinv as ((_ & _ & Hf) & Hb & Hs).
  { repeat split. }
  { unfold replies_bounded. cbn. rewrite Hsent, Hrecv, Haw. cbn. lia. }
  cbn [fst] in Hs. subst r'.
  assert (Hfin : ping.finish p' (PingTest.mk domain 0 0 F64.zero "", out') =
                 (PingTest.mk domain (ping.PacketsSent p') (ping.PacketsRecv p')
                    (ping.stat_PacketLoss (ping.GetStatistics p')) "",
                  out' ++ [LogStatistics (ping.GetStatistics p')])).
  { unfold ping.finish. rewrite Hf. reflexivity. }
  rewrite Hfin.
  assert (Hok : exists pinger0 ws0 e0,
            @inl (ping.Pinger session) string pinger = inl pinger0 /\
            ping.Session ws e = ping.Session ws0 e0 /\
            let q :=
              fst (fst (ping.runLoop (ping.sendICMP (PingCheck_pinger pinger0 cfg)) ws0
                          (PingTest.mk domain 0 0 F64.zero "",
                           [LogPing (ping.addr pinger0) (ping.ipaddr pinger0)]))) in
            replies_bounded q /\
            PingTest.mk domain (ping.PacketsSent p') (ping.PacketsRecv p')
              (ping.stat_PacketLoss (ping.GetStatistics p')) "" =
            PingTest.mk domain (ping.PacketsSent q) (ping.PacketsRecv q)
              (ping.stat_PacketLoss (ping.GetStatistics q)) "").
  { exists pinger, ws, e. split; [reflexivity|]. split; [reflexivity|].
    cbn zeta. rewrite Hrl. cbn [fst]. split; [assumption|reflexivity]. }
  destruct counted; [exact Hok|]. destruct e as [|err]; [exact Hok|reflexivity].
Qed.

(** C6. A duplicate reply leaves [result] as it is and does not count as
    received: processing a reply adds one to the received count exactly when
    its sequence number is awaited, and never writes [result]; and in the
    result PingCheck returns, the packets received do not exceed the packets
    transmitted. *)
Theorem received_within_transmitted :
  (forall pkt s, fst (PingCheck_OnDuplicateRecv pkt s) = fst s) /\
  (forall (p : ping.Pinger session) cfg pkt s,
     let q := PingCheck_pinger p cfg in
     ping.PacketsRecv (fst (ping.processPacket q pkt s)) =
       ping.PacketsRecv q + (if ping.inflight q (ping.Seq pkt) then 1 else 0) /\
     fst (snd (ping.processPacket q pkt s)) = fst s) /\
  (forall env domain cfg,
     PingTest.Received (PingCheck env domain cfg) <=
     PingTest.Transmitted (PingCheck env domain cfg)).
Proof.
  split; [reflexivity|]. split.
  - intros p cfg pkt s. cbn zeta. unfold ping.processPacket.
    destruct (ping.inflight (PingCheck_pinger p cfg) (ping.Seq pkt)); cbn;
      (split; [lia|reflexivity]).
  - intros env domain cfg.
    pose proof (PingCheck_cases env domain cfg) as H.
    destruct (PingCheck_failure env domain cfg) as [err|]; [rewrite H; cbn; lia|].
    destruct H as (pinger & ws & e & _ & _ & Hb & ->).
    cbn [PingTest.Received PingTest.Transmitted].
    unfold replies_bounded in Hb. lia.
Qed.

(** C7. When PingCheck fails, because the pinger could not be constructed
    (the domain does not resolve) or because Run returned an error, before or
    during the echo sequence, the result it returns carries the domain and
    the error and no statistics: Transmitted, Received and Loss are at their
    zero defaults. *)
Theorem PingCheck_on_failure (env : net.Env) (domain : string) (cfg : config.Config)
    (err : string) :
  PingCheck_failure env domain cfg = Some err ->
  let r := PingCheck env domain cfg in
  PingTest.URL r = domain /\
  PingTest.Error r = err /\
  no_statistics r.
Proof.
  intros Hfail. cbn zeta.
  pose proof (PingCheck_cases env domain cfg) as H.
  rewrite Hfail in H. rewrite H. unfold no_statistics. cbn. auto.
Qed.

Lemma PingCheck_on_failure_witness :
  (let r := PingCheck quiet_env "nowhere.invalid" config.New in
   PingTest.URL r = "nowhere.invalid"%string /\
   PingTest.Error r = "lookup nowhere.invalid: no such host"%string /\
   no_statistics r) /\
  (let r := PingCheck quiet_env "unreachable.example" config.New in
   PingTest.URL r = "unreachable.example"%string /\
   PingTest.Error r = "sendto: network is unreachable"%string /\
   no_statistics r) /\
  (let r := PingCheck quiet_env "lossy.example" config.New in
   PingTest.URL r = "lossy.example"%string /\
   PingTest.Error r = "read udp: connection refused"%string /\
   no_statistics r).
Proof.
  split; [|split].
  - apply (PingCheck_on_failure quiet_env "nowhere.invalid" config.New
             "lookup nowhere.invalid: no such host").
    reflexivity.
  - apply (PingCheck_on_failure quiet_env "unreachable.example" config.New
             "sendto: network is unreachable").
    reflexivity.
  - apply (PingCheck_on_failure quiet_env "lossy.example" config.New
             "read udp: connection refused").
    reflexivity.
Defined.

(** ** The orchestrators *)

Lemma TestHTTP_URL (env : net.Env) (u : string) (cfg : config.Config) :
  HTTPTest.URL (TestHTTP env u cfg) = u.
Proof.
  unfold TestHTTP. destruct (net.http_get env u) as [e|e|resp]; [reflexivity..|].
  destruct (net.TLS resp); destruct (net.Body resp); reflexivity.
Qed.

Lemma values_map_Some {A B} (f : A -> B) (l : list A) :
  values (map (fun a => Some (f a)) l) = map f l.
Proof. unfold values. induction l as [|a l IH]; cbn; [|rewrite IH]; reflexivity. Qed.

(** The HTTP container holds the results of the HTTP goroutines, in the
    order of their stores. *)
Lemma store_httpTests (env : net.Env) (cfg : config.Config) (sched : list task) : forall c,
  httpTests (fold_left (store env cfg) sched c) =
  httpTests c ++ map (fun u => Some (TestHTTP env u cfg)) (http_urls sched).
Proof.
  induction sched as [|g sched IH]; intros c; cbn [fold_left].
  - cbn. now rewrite app_nil_r.
  - rewrite IH. destruct g as [u|u| |d]; cbn [store httpTests]; try reflexivity.
    + cbn [http_urls omap]. fold (http_urls sched). cbn [map]. now rewrite <- app_assoc.
    + destruct (pingTest c); reflexivity.
Qed.

Lemma http_urls_launched (us ss ds : list string) : http_urls (launched us ss ds) = us.
Proof.
  unfold launched, http_urls. rewrite !omap_app.
  assert (H1 : omap (fun g => match g with HTTPTask u => Some u | _ => None end)
                 (map HTTPTask us) = us).
  { induction us as [|u us IH]; cbn; [|rewrite IH]; reflexivity. }
  assert (H2 : forall l, omap (fun g => match g with HTTPTask u => Some u | _ => None end)
                 (map SpeedTask l) = []).
  { induction l as [|u l IH]; cbn; [|rewrite IH]; reflexivity. }
  assert (H3 : forall l, omap (fun g => match g with HTTPTask u => Some u | _ => None end)
                 (map PingTask l) = []).
  { induction l as [|u l IH]; cbn; [|rewrite IH]; reflexivity. }
  rewrite H1, H2, H3. cbn. now rewrite app_nil_r.
Qed.

Lemma runAllTests_HTTPTests (env : net.Env) (cfg : config.Config) (sched : list task)
    (w : World) :
  exists r, saved_results (runAllTests env cfg sched w) = Some r /\
            TestResults.HTTPTests r = map (fun u => TestHTTP env u cfg) (http_urls sched).
Proof.
  unfold runAllTests. rewrite SaveResults_some.
  eexists; split; [reflexivity|].
  rewrite store_httpTests. cbn [httpTests app].
  rewrite values_map_Some.
  destruct (vpnTest _), (pingTest _), (Time.IsZero _); reflexivity.
Qed.

(** A slot of runHTTPTests holds the result for its URL once its goroutine
    has stored, and is untouched by the others. *)
Lemma http_store_lookup (env : net.Env) (cfg : config.Config) (urls : list string)
    (sched : list (nat * string)) :
  forall (slots : list (option HTTPTest.t)) (i : nat),
  List.length slots = List.length urls ->
  (forall g, g ∈ sched -> urls !! fst g = Some (snd g)) ->
  fold_left (http_store env cfg) sched slots !! i =
  if bool_decide (i ∈ map fst sched)
  then (fun u => Some (TestHTTP env u cfg)) <$> urls !! i
  else slots !! i.
Proof.
  induction sched as [|g sched IH]; intros slots i Hlen Hg; cbn [fold_left].
  - reflexivity.
  - assert (Hgu : urls !! fst g = Some (snd g)) by (apply Hg; left).
    assert (Hlt : (fst g < List.length slots)%nat).
    { rewrite Hlen. eapply lookup_lt_Some, Hgu. }
    rewrite IH; [|unfold http_store; now rewrite length_insert|
                 intros g' Hg'; apply Hg; now right].
    cbn [map]. unfold http_store.
    destruct (bool_decide (i ∈ map fst sched)) eqn:Hin1.
    + apply bool_decide_eq_true in Hin1.
      rewrite bool_decide_eq_true_2 by (now right). reflexivity.
    + apply bool_decide_eq_false in Hin1.
      destruct (decide (i = fst g)) as [->|Hne].
      * rewrite bool_decide_eq_true_2 by left.
        rewrite list_lookup_insert_eq by assumption. rewrite Hgu. reflexivity.
      * rewrite list_lookup_insert_ne by congruence.
        rewrite bool_decide_eq_false_2; [reflexivity|].
        intros [?|?]%elem_of_cons; contradiction.
Qed.

Lemma http_goroutines_elem (urls : list string) (g : nat * string) :
  g ∈ http_goroutines urls <-> urls !! fst g = Some (snd g).
Proof.
  unfold http_goroutines. rewrite elem_of_lookup_imap. split.
  - intros (i & u & -> & Hu). exact Hu.
  - intros Hu. exists (fst g), (snd g). split; [now destruct g|exact Hu].
Qed.

Lemma runHTTPTests_slots (env : net.Env) (cfg : config.Config) (urls : list string)
    (sched : list (nat * string)) :
  sched ≡ₚ http_goroutines urls ->
  fold_left (http_store env cfg) sched (replicate (List.length urls) None) =
  map (fun u => Some (TestHTTP env u cfg)) urls.
Proof.
  intros Hperm. apply list_eq. intros i.
  rewrite (http_store_lookup env cfg urls).
  - rewrite list_lookup_fmap.
    destruct (bool_decide (i ∈ map fst sched)) eqn:Hin; [reflexivity|].
    apply bool_decide_eq_false in Hin.
    destruct (urls !! i) as [u|] eqn:Hu.
    + exfalso. apply Hin. apply list_elem_of_In, in_map_iff. exists (i, u).
      split; [reflexivity|]. apply list_elem_of_In. rewrite Hperm.
      now apply http_goroutines_elem.
    + cbn. apply lookup_replicate_None. apply lookup_ge_None in Hu. lia.
  - apply length_replicate.
  - intros g Hg. apply http_goroutines_elem. now rewrite <- Hperm.
Qed.

(** C1. For distinct target URLs and any order in which the goroutines
    store their results, the report has exactly one HTTPTest per target:
    runHTTPTests reports the results of the targets in the order of the
    targets; runAllTests reports a permutation of them; in both the number
    of results is the number of targets and no URL occurs twice. *)
Theorem one_HTTPTest_per_target (env : net.Env) (cfg : config.Config)
    (urls speeds domains : list string)
    (sched1 : list (nat * string)) (sched2 : list task) (w : World) :
  NoDup urls ->
  sched1 ≡ₚ http_goroutines urls ->
  sched2 ≡ₚ launched urls speeds domains ->
  (exists r,
     saved_results (runHTTPTests env urls cfg sched1 w) = Some r /\
     TestResults.HTTPTests r = map (fun u => TestHTTP env u cfg) urls /\
     List.length (TestResults.HTTPTests r) = List.length urls /\
     NoDup (map HTTPTest.URL (TestResults.HTTPTests r))) /\
  (exists r,
     saved_results (runAllTests env cfg sched2 w) = Some r /\
     TestResults.HTTPTests r ≡ₚ map (fun u => TestHTTP env u cfg) urls /\
     List.length (TestResults.HTTPTests r) = List.length urls /\
     NoDup (map HTTPTest.URL (TestResults.HTTPTests r))).
Proof.
  intros Hnodup Hs1 Hs2.
  assert (Hurl : forall l, map HTTPTest.URL (map (fun u => TestHTTP env u cfg) l) = l).
  { intros l. rewrite map_map. rewrite <- (map_id l) at 2.
    apply map_ext. intros u. apply TestHTTP_URL. }
  split.
  - unfold runHTTPTests. rewrite SaveResults_some.
    rewrite (runHTTPTests_slots env cfg urls sched1 Hs1), values_map_Some.
    eexists. split; [reflexivity|].
    assert (Hh : forall r : TestResults.t,
      TestResults.HTTPTests (if Time.IsZero (TestResults.Timestamp r)
                             then TestResults.set_Timestamp (clock w (ticks w)) r else r)
      = TestResults.HTTPTests r).
    { intros r. destruct (Time.IsZero _); reflexivity. }
    rewrite Hh. cbn [TestResults.HTTPTests].
    split; [reflexivity|]. split; [apply length_map|].
    rewrite Hurl. exact Hnodup.
  - destruct (runAllTests_HTTPTests env cfg sched2 w) as (r & Hr & Hh).
    exists r. split; [exact Hr|].
    assert (Hp : http_urls sched2 ≡ₚ urls).
    { rewrite <- (http_urls_launched urls speeds domains). unfold http_urls.
      now rewrite Hs2. }
    rewrite Hh. split; [now rewrite Hp|].
    split; [rewrite length_map; now rewrite Hp|].
    rewrite Hurl. now rewrite Hp.
Qed.

Lemma one_HTTPTest_per_target_witness :
  (exists r,
     saved_results
       (runHTTPTests quiet_env httpURLs config.New (rev (http_goroutines httpURLs))
          empty_world) = Some r /\
     TestResults.HTTPTests r = map (fun u => TestHTTP quiet_env u config.New) httpURLs /\
     List.length (TestResults.HTTPTests r) = List.length httpURLs /\
     NoDup (map HTTPTest.URL (TestResults.HTTPTests r))) /\
  (exists r,
     saved_results
       (runAllTests quiet_env config.New (rev (launched httpURLs speedURLs pingDomains))
          empty_world) = Some r /\
     TestResults.HTTPTests r ≡ₚ map (fun u => TestHTTP quiet_env u config.New) httpURLs /\
     List.length (TestResults.HTTPTests r) = List.length httpURLs /\
     NoDup (map HTTPTest.URL (TestResults.HTTPTests r))).
Proof.
  apply (one_HTTPTest_per_target quiet_env config.New httpURLs speedURLs pingDomains).
  - apply (bool_decide_unpack (NoDup httpURLs)). vm_compute. exact I.
  - symmetry. apply Permutation_rev.
  - symmetry. apply Permutation_rev.
Defined.

Lemma first_ping_store (env : net.Env) (cfg : config.Config) (sched : list task) : forall c,
  pingTest (fold_left (store env cfg) sched c) =
  match pingTest c with
  | Some p => Some p
  | None => (fun d => PingCheck env d cfg) <$> first_ping sched
  end.
Proof.
  induction sched as [|g sched IH]; intros c; cbn [fold_left first_ping].
  - destruct (pingTest c); reflexivity.
  - rewrite IH. destruct g as [u|u| |d]; cbn [store pingTest]; try reflexivity.
    destruct (pingTest c) eqn:Hc; cbn [pingTest]; [rewrite Hc|]; reflexivity.
Qed.

Lemma first_ping_elem (sched : list task) :
  match first_ping sched with
  | Some d => PingTask d ∈ sched
  | None => forall d, PingTask d ∉ sched
  end.
Proof.
  induction sched as [|g sched IH]; cbn [first_ping].
  - intros d Hd. inversion Hd.
  - destruct g as [u|u| |d]; try (now left);
      (destruct (first_ping sched); [now right|];
       intros d Hd; apply elem_of_cons in Hd as [Hd|Hd]; [discriminate|exact (IH d Hd)]).
Qed.

(** C10. In a pass over the default test set, whatever the order of the
    stores, the report holds the result of one ping goroutine: the first of
    the schedule to store, which is one of the two domains configured; the
    result of the other one is not in the report. *)
Theorem first_ping_result_wins (env : net.Env) (cfg : config.Config) (sched : list task)
    (w : World) :
  sched ≡ₚ launched httpURLs speedURLs pingDomains ->
  exists r d,
    saved_results (runAllTests env cfg sched w) = Some r /\
    first_ping sched = Some d /\
    d ∈ pingDomains /\
    TestResults.PingTest r = PingCheck env d cfg.
Proof.
  intros Hs.
  pose proof (first_ping_elem sched) as Hfirst.
  destruct (first_ping sched) as [d|] eqn:Hd.
  - unfold runAllTests. rewrite SaveResults_some.
    rewrite first_ping_store, Hd. cbn [pingTest fmap option_fmap option_map].
    eexists _, d. split; [reflexivity|]. split; [reflexivity|]. split.
    + rewrite Hs in Hfirst. unfold launched in Hfirst.
      rewrite !elem_of_app in Hfirst.
      destruct Hfirst as [H|[H|[H|H]]].
      * apply list_elem_of_fmap in H as (? & ? & ?). discriminate.
      * apply list_elem_of_fmap in H as (? & ? & ?). discriminate.
      * apply list_elem_of_singleton in H. discriminate.
      * apply list_elem_of_fmap in H as (d' & [= ->] & H). exact H.
    + destruct (vpnTest _), (Time.IsZero _); reflexivity.
  - exfalso. apply (Hfirst "www.google.com"%string). rewrite Hs.
    unfold launched, pingDomains. rewrite !elem_of_app. right. right. right.
    cbn. right. left.
Qed.

Lemma first_ping_result_wins_witness :
  exists r d,
    saved_results
      (runAllTests quiet_env config.New (rev (launched httpURLs speedURLs pingDomains))
         empty_world) = Some r /\
    first_ping (rev (launched httpURLs speedURLs pingDomains)) = Some d /\
    d ∈ pingDomains /\
    TestResults.PingTest r = PingCheck quiet_env d config.New.
Proof.
  apply first_ping_result_wins. symmetry. apply Permutation_rev.
Defined.

(** ** The scenarios of the specification, evaluated *)

Example ping_all_five_received :
  PingCheck scenario_env "all.example" config.New =
  PingTest.mk "all.example" 5 5 F64.zero "".
Proof. vm_compute. reflexivity. Qed.

Example ping_three_of_five_received :
  PingCheck scenario_env "some.example" config.New =
  PingTest.mk "some.example" 5 3 (F64.of_int 40) "".
Proof. vm_compute. reflexivity. Qed.

Example ping_read_error_after_three_sent :
  PingCheck quiet_env "lossy.example" config.New =
  PingTest.mk "lossy.example" 0 0 F64.zero "read udp: connection refused".
Proof. vm_compute. reflexivity. Qed.

Example http_timeout_has_error_and_no_status :
  TestHTTP scenario_env "http://timeout.invalid" config.New =
  HTTPTest.mk "http://timeout.invalid" "" "" "" "" "" 0 "context deadline exceeded".
Proof. reflexivity. Qed.

Example only_ping_configured :
  saved_results (runAllTests scenario_env config.New [PingTask "all.example"] empty_world) =
  Some (TestResults.mk [] [] VPNTest.zero (PingTest.mk "all.example" 5 5 F64.zero "") noon).
Proof. vm_compute. reflexivity. Qed.

Example latin1_url_read_back :
  match json_.MarshalIndent latin1_report with
  | Ok d =>
    match json_.Unmarshal d TestResults.zero with
    | Ok r => map HTTPTest.URL (TestResults.HTTPTests r)
    | Fail _ => []
    end
  | Fail _ => []
  end = [ ("http://a/" +:+ utf8.RuneError)%string ].
Proof. vm_compute. reflexivity. Qed.

(** * Further properties *)

(** ** The codec on arbitrary reports *)

(** Reading back what was written, for any value: the strings come back
    with their invalid bytes replaced; a float that is NaN or infinite makes
    the encoding fail. *)
Lemma HTTPTest_decode_encode (h : HTTPTest.t) :
  exists j, Encode.HTTPTest_ h = Ok j /\
            Decode.HTTPTest_ j HTTPTest.zero = Ok (HTTPTest_sanitize h).
Proof.
  destruct h as [url status proto tls cipher server n err].
  unfold Encode.HTTPTest_, HTTPTest_sanitize, Encode.string_, Encode.empty_int;
    cbn [HTTPTest.URL HTTPTest.Status HTTPTest.Proto HTTPTest.TLSVersion
    HTTPTest.CipherSuite HTTPTest.ServerName HTTPTest.ResponseLength HTTPTest.Error].
  destruct (n =? 0) eqn:Hn; [apply Z.eqb_eq in Hn; subst n|];
  destruct proto, tls, cipher, server, err;
  (eexists; split; [reflexivity|reflexivity]).
Qed.

Lemma SpeedTest_decode_encode (s : SpeedTest.t) :
  if F64.is_inf_or_nan (SpeedTest.DownloadMbps s)
  then Encode.SpeedTest_ s = Fail UnsupportedValueError
  else exists j, Encode.SpeedTest_ s = Ok j /\
                 Decode.SpeedTest_ j SpeedTest.zero = Ok (SpeedTest_sanitize s).
Proof.
  destruct s as [url mbps elapsed bytes err].
  unfold Encode.SpeedTest_, SpeedTest_sanitize, Encode.string_, Encode.float_;
    cbn [SpeedTest.URL SpeedTest.DownloadMbps SpeedTest.ElapsedTime
         SpeedTest.BytesReceived SpeedTest.Error].
  destruct (F64.is_inf_or_nan mbps); destruct err; try reflexivity;
    (eexists; split; reflexivity).
Qed.

Lemma VPNTest_decode_encode (v : VPNTest.t) :
  exists j, Encode.VPNTest_ v = Ok j /\
            Decode.VPNTest_ j VPNTest.zero = Ok (VPNTest_sanitize v).
Proof.
  destruct v as [status err].
  unfold Encode.VPNTest_, VPNTest_sanitize, Encode.string_;
    cbn [VPNTest.Status VPNTest.Error].
  destruct err; (eexists; split; reflexivity).
Qed.

Lemma PingTest_decode_encode (p : PingTest.t) :
  if F64.is_inf_or_nan (PingTest.Loss p)
  then Encode.PingTest_ p = Fail UnsupportedValueError
  else exists j p', Encode.PingTest_ p = Ok j /\
                    Decode.PingTest_ j PingTest.zero = Ok p' /\
                    PingTest_equal p' (PingTest_sanitize p).
Proof.
  destruct p as [url sent recv loss err].
  unfold Encode.PingTest_, PingTest_sanitize, PingTest_equal, Encode.string_,
    Encode.empty_int, Encode.empty_float, Encode.float_;
    cbn [PingTest.URL PingTest.Transmitted PingTest.Received PingTest.Loss PingTest.Error].
  destruct (sent =? 0) eqn:Hs; [apply Z.eqb_eq in Hs; subst sent|];
  (destruct (recv =? 0) eqn:Hr; [apply Z.eqb_eq in Hr; subst recv|]);
  (destruct loss as [sg|sg| |sg m e];
   cbn [F64.eqb SFeqb SFcompare F64.zero F64.is_inf_or_nan];
   try (destruct sg); destruct url, err; try reflexivity;
   (eexists; eexists; split; [reflexivity|]; split; [reflexivity|]);
   cbn [PingTest.URL PingTest.Transmitted PingTest.Received PingTest.Loss PingTest.Error];
   repeat split; try reflexivity;
   apply F64_eqb_refl; reflexivity).
Qed.

Lemma HTTPTests_decode_encode (l : list HTTPTest.t) :
  exists js, res_mapM Encode.HTTPTest_ l = Ok js /\
             res_mapM (fun j => Decode.HTTPTest_ j HTTPTest.zero) js =
               Ok (map HTTPTest_sanitize l).
Proof.
  induction l as [|h l IH]; cbn [res_mapM map].
  - exists []. split; reflexivity.
  - destruct (HTTPTest_decode_encode h) as (j & Hj & Hd).
    destruct IH as (js & Hjs & Hds).
    exists (j :: js). rewrite Hj, Hjs. cbn [res_bind res_mapM]. rewrite Hd, Hds. auto.
Qed.

Lemma SpeedTest_sanitize_equal (s : SpeedTest.t) :
  F64.is_inf_or_nan (SpeedTest.DownloadMbps s) = false ->
  SpeedTest_equal (SpeedTest_sanitize s) (SpeedTest_sanitize s).
Proof. intros H. repeat split. cbn. now apply F64_eqb_refl. Qed.

Lemma SpeedTests_decode_encode (l : list SpeedTest.t) :
  if existsb (fun s => F64.is_inf_or_nan (SpeedTest.DownloadMbps s)) l
  then res_mapM Encode.SpeedTest_ l = Fail UnsupportedValueError
  else exists js, res_mapM Encode.SpeedTest_ l = Ok js /\
                  res_mapM (fun j => Decode.SpeedTest_ j SpeedTest.zero) js =
                    Ok (map SpeedTest_sanitize l) /\
                  Forall2 SpeedTest_equal (map SpeedTest_sanitize l) (map SpeedTest_sanitize l).
Proof.
  induction l as [|s l IH]; cbn [res_mapM map existsb].
  - exists []. repeat split. constructor.
  - pose proof (SpeedTest_decode_encode s) as Hs.
    pose proof (SpeedTest_sanitize_equal s) as Heq.
    destruct (F64.is_inf_or_nan (SpeedTest.DownloadMbps s)); cbn [orb].
    + rewrite Hs. reflexivity.
    + destruct Hs as (j & Hj & Hd). rewrite Hj. cbn [res_bind].
      destruct (existsb _ l).
      * rewrite IH. reflexivity.
      * destruct IH as (js & Hjs & Hds & Hall). rewrite Hjs. cbn [res_bind].
        exists (j :: js). cbn [res_mapM]. rewrite Hd, Hds. cbn [res_bind].
        repeat split. constructor; auto.
Qed.

Lemma TestResults_decode_encode (r : TestResults.t) :
  match Encode.TestResults_ r with
  | Fail e =>
    e = (if has_unsupported_float r then UnsupportedValueError else MarshalerError) /\
    (has_unsupported_float r = true \/ Time.rfc3339_ok (TestResults.Timestamp r) = false)
  | Ok j =>
    has_unsupported_float r = false /\
    Time.rfc3339_ok (TestResults.Timestamp r) = true /\
    exists r', Decode.TestResults_ j TestResults.zero = Ok r' /\
               TestResults_equal r' (TestResults_sanitize r)
  end.
Proof.
  destruct r as [https speeds vpn ping ts].
  unfold Encode.TestResults_, has_unsupported_float, TestResults_sanitize;
    cbn [TestResults.HTTPTests TestResults.SpeedTests TestResults.VPNTest
         TestResults.PingTest TestResults.Timestamp].
  destruct (HTTPTests_decode_encode https) as (jh & Hjh & Hdh).
  destruct (VPNTest_decode_encode vpn) as (jv & Hjv & Hdv).
  pose proof (SpeedTests_decode_encode speeds) as Hsp.
  pose proof (PingTest_decode_encode ping) as Hpg.
  unfold Encode.slice_, Encode.struct_, Encode.empty_struct, Encode.time_.
  rewrite Hjh, Hjv.
  destruct (existsb _ speeds) eqn:Hinf; cbn [orb].
  { rewrite Hsp. destruct https, speeds; try discriminate;
      cbn; auto. }
  destruct Hsp as (jsp & Hjs & Hds & Heqs). rewrite Hjs.
  destruct (F64.is_inf_or_nan (PingTest.Loss ping)).
  { rewrite Hpg. destruct https, speeds; cbn; auto. }
  destruct Hpg as (jp & ping' & Hjp & Hdp & Heqp). rewrite Hjp.
  destruct (Time.rfc3339_ok ts).
  2:{ destruct https, speeds; cbn; auto. }
  destruct https as [|h https]; destruct speeds as [|s speeds];
    cbn [Encode.struct_members Encode.field_omitempty Encode.field Encode.empty_slice
         List.length Nat.eqb res_bind app];
    (split; [reflexivity|]); (split; [reflexivity|]);
    (eexists (TestResults.mk _ _ _ ping' ts)); (split;
    [ unfold Decode.TestResults_, Decode.struct_, TestResults.zero;
      repeat (progress
        (cbn [Decode.members Decode.TestResults_field res_bind Decode.slice_ Decode.time_];
         eval_keys; rewrite ?Hdh, ?Hds, ?Hdv, ?Hdp));
      reflexivity
    | unfold TestResults_equal;
      cbn [TestResults.HTTPTests TestResults.SpeedTests TestResults.VPNTest
           TestResults.PingTest TestResults.Timestamp];
      (split; [try reflexivity|]); (split; [try assumption|]); (split; [reflexivity|]);
      (split; [assumption|]); apply Z.eqb_refl ]).
Qed.

Lemma ValidString_RuneError (x : string) :
  utf8.ValidString (utf8.RuneError +:+ x) = utf8.ValidString x.
Proof. reflexivity. Qed.

Lemma toValidUTF8_is_valid_upto (n : nat) : forall s,
  (String.length s <= n)%nat -> utf8.ValidString (utf8.toValidUTF8 s) = true.
Proof.
  induction n as [|n IH]; intros s Hlen.
  - destruct s; [reflexivity|cbn in Hlen; lia].
  - destruct s as [|a s1]; [reflexivity|].
    assert (H1 : utf8.ValidString (utf8.toValidUTF8 s1) = true)
      by (apply IH; cbn in Hlen; lia).
    cbn [utf8.toValidUTF8].
    destruct (utf8.lead_len a) as [|[|[|[|[|k]]]]] eqn:Hl.
    + rewrite ValidString_RuneError. exact H1.
    + cbn [utf8.ValidString]. rewrite Hl. exact H1.
    + destruct s1 as [|b s2]; [rewrite ValidString_RuneError; exact H1|].
      destruct (utf8.second_ok a b) eqn:Hb; [|rewrite ValidString_RuneError; exact H1].
      cbn [utf8.ValidString]. rewrite Hl, Hb. apply IH. cbn in Hlen. lia.
    + destruct s1 as [|b [|c s3]]; try (rewrite ValidString_RuneError; exact H1).
      destruct (utf8.second_ok a b && utf8.cont c) eqn:Hb;
        [|rewrite ValidString_RuneError; exact H1].
      cbn [utf8.ValidString]. rewrite Hl, Hb. apply IH. cbn in Hlen. lia.
    + destruct s1 as [|b [|c [|d s4]]]; try (rewrite ValidString_RuneError; exact H1).
      destruct (utf8.second_ok a b && utf8.cont c && utf8.cont d) eqn:Hb;
        [|rewrite ValidString_RuneError; exact H1].
      cbn [utf8.ValidString]. rewrite Hl, Hb. apply IH. cbn in Hlen. lia.
    + rewrite ValidString_RuneError. exact H1.
Qed.

Lemma toValidUTF8_is_valid (s : string) : utf8.ValidString (utf8.toValidUTF8 s) = true.
Proof. apply (toValidUTF8_is_valid_upto (String.length s)). lia. Qed.

Lemma TestResults_sanitize_utf8 (r : TestResults.t) :
  TestResults_utf8 (TestResults_sanitize r) = true.
Proof.
  destruct r as [https speeds vpn ping ts].
  unfold TestResults_utf8, TestResults_sanitize;
    cbn [TestResults.HTTPTests TestResults.SpeedTests TestResults.VPNTest
         TestResults.PingTest TestResults.Timestamp].
  rewrite !andb_true_iff. repeat split.
  - induction https as [|h l IH]; [reflexivity|]. cbn [map forallb]. rewrite IH.
    unfold HTTPTest_utf8, HTTPTest_sanitize. cbn. rewrite !toValidUTF8_is_valid. reflexivity.
  - induction speeds as [|h l IH]; [reflexivity|]. cbn [map forallb]. rewrite IH.
    unfold SpeedTest_utf8, SpeedTest_sanitize. cbn. rewrite !toValidUTF8_is_valid. reflexivity.
  - unfold VPNTest_utf8, VPNTest_sanitize. cbn. rewrite !toValidUTF8_is_valid. reflexivity.
  - unfold PingTest_utf8, PingTest_sanitize. cbn. rewrite !toValidUTF8_is_valid. reflexivity.
Qed.

Lemma TestResults_equal_utf8 (a b : TestResults.t) :
  TestResults_equal a b -> TestResults_utf8 a = TestResults_utf8 b.
Proof.
  destruct a as [h1 s1 v1 p1 t1], b as [h2 s2 v2 p2 t2].
  unfold TestResults_equal, TestResults_utf8;
    cbn [TestResults.HTTPTests TestResults.SpeedTests TestResults.VPNTest
         TestResults.PingTest TestResults.Timestamp].
  intros (-> & Hs & -> & Hp & _).
  assert (Hsp : forallb SpeedTest_utf8 s1 = forallb SpeedTest_utf8 s2).
  { induction Hs as [|x y l1 l2 Hxy _ IH]; [reflexivity|]. cbn [forallb]. rewrite IH.
    destruct Hxy as (Hu & _ & _ & _ & He). unfold SpeedTest_utf8. now rewrite Hu, He. }
  destruct Hp as (Hu & _ & _ & _ & He).
  unfold PingTest_utf8. now rewrite Hsp, Hu, He.
Qed.

Lemma SaveResults_then_LoadResults (r : TestResults.t) (p : string) (perm : Z) (w : World) :
  saved_err (SaveResults (Some r) p perm w) = None ->
  readable (saved_world (SaveResults (Some r) p perm w)) p = true ->
  exists r1 r2,
    saved_results (SaveResults (Some r) p perm w) = Some r1 /\
    fst (LoadResults p (saved_world (SaveResults (Some r) p perm w))) = inl r2 /\
    TestResults_equal r2 (TestResults_sanitize r1) /\
    TestResults_utf8 r2 = true.
Proof.
  intros Hok Hread.
  destruct (SaveResults_ok r p perm w Hok) as (r1 & j & f & Hres & Hr1 & Hj & Hf & Hd & Hp).
  pose proof (TestResults_decode_encode r1) as Hrt. rewrite Hj in Hrt.
  destruct Hrt as (_ & _ & r2 & Hdec & Heq).
  exists r1, r2. split; [assumption|]. split; [|split; [assumption|]].
  - unfold readable in Hread. unfold LoadResults.
    unfold os.ReadFile in *. rewrite Hp, Hf in *.
    destruct (os.may_read f); [|discriminate].
    rewrite Hd. cbn [json_.Unmarshal]. rewrite Hdec. reflexivity.
  - rewrite (TestResults_equal_utf8 _ _ Heq). apply TestResults_sanitize_utf8.
Qed.

Lemma SaveResults_frame (results : option TestResults.t) (p q : string)
    (perm : Z) (w : World) :
  q <> p ->
  files (saved_world (SaveResults results p perm w)) !! q = files w !! q.
Proof.
  intros Hq. unfold SaveResults.
  destruct results as [r|]; [|reflexivity].
  unfold time_Now.
  destruct (Time.IsZero (TestResults.Timestamp r));
    (destruct (json_.MarshalIndent _); [|reflexivity]);
    unfold os.WriteFile; cbn [files];
    (destruct (String.eqb p ""); [reflexivity|]);
    (destruct (files w !! p) as [f|]; [destruct (os.may_write f); [|reflexivity]|]);
    cbn; now rewrite lookup_insert_ne.
Qed.

Lemma SaveResults_marshal_outcome (r : TestResults.t) (p : string) (perm : Z) (w : World) :
  let s := SaveResults (Some r) p perm w in
  let ts := if Time.IsZero (TestResults.Timestamp r) then clock w (ticks w)
            else TestResults.Timestamp r in
  if has_unsupported_float r || negb (Time.rfc3339_ok ts)
  then saved_err s =
         Some (NewParseError "Storage" "failed to marshal results to JSON"
                 (JSONError (if has_unsupported_float r then UnsupportedValueError
                             else MarshalerError))) /\
       files (saved_world s) = files w
  else saved_err s = None \/
       exists e, saved_err s =
                   Some (NewNetworkError "Storage" "failed to write results file" (OsError e)).
Proof.
  cbn zeta. unfold SaveResults, time_Now, json_.MarshalIndent.
  set (r1 := if Time.IsZero (TestResults.Timestamp r)
             then TestResults.set_Timestamp (clock w (ticks w)) r else r).
  assert (Hr1 : (if Time.IsZero (TestResults.Timestamp r)
         then let '(now, w') := (clock w (ticks w), mkWorld (files w) (clock w) (S (ticks w))) in
              (TestResults.set_Timestamp now r, w')
         else (r, w)) =
         (r1, if Time.IsZero (TestResults.Timestamp r)
              then mkWorld (files w) (clock w) (S (ticks w)) else w)).
  { subst r1. destruct (Time.IsZero _); reflexivity. }
  rewrite Hr1. clear Hr1.
  assert (Hfl : has_unsupported_float r1 = has_unsupported_float r).
  { subst r1. destruct (Time.IsZero _); reflexivity. }
  assert (Hts : TestResults.Timestamp r1 =
                if Time.IsZero (TestResults.Timestamp r) then clock w (ticks w)
                else TestResults.Timestamp r).
  { subst r1. destruct (Time.IsZero _); reflexivity. }
  assert (Hfiles : files (if Time.IsZero (TestResults.Timestamp r)
              then mkWorld (files w) (clock w) (S (ticks w)) else w) = files w).
  { destruct (Time.IsZero _); reflexivity. }
  pose proof (TestResults_decode_encode r1) as Hrt.
  rewrite Hfl, Hts in Hrt.
  destruct (Encode.TestResults_ r1) as [j|e]; cbn [res_bind].
  - destruct Hrt as (-> & -> & _). cbn [orb negb].
    destruct (os.WriteFile _ _ _ _) as [fs [e|]]; cbn; eauto.
  - destruct Hrt as (-> & Hor).
    assert (Hc : has_unsupported_float r || negb (Time.rfc3339_ok
              (if Time.IsZero (TestResults.Timestamp r) then clock w (ticks w)
               else TestResults.Timestamp r)) = true).
    { destruct Hor as [->| ->]; [reflexivity|]. cbn. apply orb_true_r. }
    rewrite Hc. cbn. split; [reflexivity|exact Hfiles].
Qed.

(** X5. LoadResults changes no file.  When it fails, the world is left as it
    was (the clock has not been read), and the error is one of two: a
    "Storage" network error that wraps the error of ReadFile, which is then
    not the absence of the file, or a "Storage" parse error that wraps the
    error of Unmarshal on the bytes read.  Unwrap gives that cause back. *)
Theorem LoadResults_effects (p : string) (w : World) :
  files (snd (LoadResults p w)) = files w /\
  match fst (LoadResults p w) with
  | inl _ => True
  | inr e =>
    snd (LoadResults p w) = w /\
    TestType (error_TestError e) = "Storage"%string /\
    ((exists oe,
        os.ReadFile (files w) p = inr oe /\
        os.IsNotExist oe = false /\
        e = NewNetworkError "Storage" "failed to read results file" (OsError oe) /\
        Unwrap e = Some (OsError oe)) \/
     (exists data je,
        os.ReadFile (files w) p = inl data /\
        json_.Unmarshal data TestResults.zero = Fail je /\
        e = NewParseError "Storage" "failed to parse results JSON" (JSONError je) /\
        Unwrap e = Some (JSONError je)))
  end.
Proof.
  unfold LoadResults, time_Now.
  destruct (os.ReadFile (files w) p) as [d|oe].
  - destruct (json_.Unmarshal d TestResults.zero) as [r|je] eqn:Hje; cbn [fst snd]; [auto|].
    split; [reflexivity|]. split; [reflexivity|]. split; [reflexivity|].
    right. exists d, je. auto.
  - destruct (os.IsNotExist oe) eqn:Hne; cbn [fst snd files]; [auto|].
    split; [reflexivity|]. split; [reflexivity|]. split; [reflexivity|].
    left. exists oe. auto.
Qed.


(** X1. After SaveResults has succeeded, loading the file gives back the
    report saved with every string made valid UTF-8 (bytes that are not
    UTF-8 replaced by U+FFFD) and nothing else changed; the report loaded
    holds valid UTF-8 only. *)
Theorem save_then_load_any_report (r : TestResults.t) (p : string) (perm : Z) (w : World) :
  saved_err (SaveResults (Some r) p perm w) = None ->
  readable (saved_world (SaveResults (Some r) p perm w)) p = true ->
  exists r1 r2,
    saved_results (SaveResults (Some r) p perm w) = Some r1 /\
    fst (LoadResults p (saved_world (SaveResults (Some r) p perm w))) = inl r2 /\
    TestResults_equal r2 (TestResults_sanitize r1) /\
    TestResults_utf8 r2 = true.
Proof. apply SaveResults_then_LoadResults. Qed.

Lemma save_then_load_any_report_witness :
  exists r1 r2,
    saved_results (SaveResults (Some latin1_report) "data.json" config.FilePermissions
                     empty_world) = Some r1 /\
    fst (LoadResults "data.json"
           (saved_world (SaveResults (Some latin1_report) "data.json"
                           config.FilePermissions empty_world))) = inl r2 /\
    TestResults_equal r2 (TestResults_sanitize r1) /\
    TestResults_utf8 r2 = true.
Proof.
  apply save_then_load_any_report; vm_compute; reflexivity.
Defined.

(** X2. Whatever it returns, SaveResults leaves every file other than the
    one at its path as it was. *)
Theorem SaveResults_changes_one_file (results : option TestResults.t) (p q : string)
    (perm : Z) (w : World) :
  q <> p ->
  files (saved_world (SaveResults results p perm w)) !! q = files w !! q.
Proof. apply SaveResults_frame. Qed.

Lemma SaveResults_changes_one_file_witness :
  files (saved_world (SaveResults (Some yesterday_report) "other.json"
                        config.FilePermissions yesterday_world)) !! "data.json"%string =
  files yesterday_world !! "data.json"%string.
Proof.
  apply SaveResults_changes_one_file. discriminate.
Defined.

(** X3. SaveResults fails on serialization exactly for the reports that
    hold a NaN or infinite float64 (a download speed or the ping loss) or
    whose timestamp has no RFC 3339 text; it then returns the parse error
    and has written nothing.  Every other report is serialized: SaveResults
    succeeds or fails on the write only. *)
Theorem unsaveable_reports (r : TestResults.t) (p : string) (perm : Z) (w : World) :
  let s := SaveResults (Some r) p perm w in
  let ts := if Time.IsZero (TestResults.Timestamp r) then clock w (ticks w)
            else TestResults.Timestamp r in
  if has_unsupported_float r || negb (Time.rfc3339_ok ts)
  then saved_err s =
         Some (NewParseError "Storage" "failed to marshal results to JSON"
                 (JSONError (if has_unsupported_float r then UnsupportedValueError
                             else MarshalerError))) /\
       files (saved_world s) = files w
  else saved_err s = None \/
       exists e, saved_err s =
                   Some (NewNetworkError "Storage" "failed to write results file" (OsError e)).
Proof. apply SaveResults_marshal_outcome. Qed.

(** ** Append, then load *)

Lemma AppendResult_unfold (httpTests : list HTTPTest.t) (speedTests : list SpeedTest.t)
    (vpnTest : option VPNTest.t) (pingTest : option PingTest.t)
    (p : string) (perm : Z) (w : World) :
  let base :=
    match fst (LoadResults p w) with
    | inl r => r
    | inr _ => TestResults.zero
    end in
  exists now w3,
    AppendResult httpTests speedTests vpnTest pingTest p perm w =
    (saved_err (SaveResults
                  (Some (TestResults.set_Timestamp now
                           (merge base httpTests speedTests vpnTest pingTest)))
                  p perm w3),
     saved_world (SaveResults
                    (Some (TestResults.set_Timestamp now
                             (merge base httpTests speedTests vpnTest pingTest)))
                    p perm w3)).
Proof.
  cbn zeta. unfold AppendResult.
  destruct (LoadResults p w) as [[r|e] w1]; cbn [fst time_Now];
    rewrite merge_as_coded; do 2 eexists; reflexivity.
Qed.

(** X4. After AppendResult has succeeded, loading the file gives the HTTP
    and speed results that were there before (none, when the file could not
    be loaded) followed by the ones given, and in the VPN and ping slots the
    records given, or the earlier ones where nil was given; strings come
    back as valid UTF-8. *)
Theorem AppendResult_then_load (httpTests : list HTTPTest.t) (speedTests : list SpeedTest.t)
    (vpnTest : option VPNTest.t) (pingTest : option PingTest.t)
    (p : string) (perm : Z) (w : World) :
  fst (AppendResult httpTests speedTests vpnTest pingTest p perm w) = None ->
  readable (snd (AppendResult httpTests speedTests vpnTest pingTest p perm w)) p = true ->
  let base :=
    match fst (LoadResults p w) with
    | inl r => r
    | inr _ => TestResults.zero
    end in
  exists r,
    fst (LoadResults p (snd (AppendResult httpTests speedTests vpnTest pingTest p perm w)))
      = inl r /\
    TestResults.HTTPTests r =
      map HTTPTest_sanitize (TestResults.HTTPTests base ++ httpTests) /\
    Forall2 SpeedTest_equal (TestResults.SpeedTests r)
      (map SpeedTest_sanitize (TestResults.SpeedTests base ++ speedTests)) /\
    TestResults.VPNTest r =
      VPNTest_sanitize (match vpnTest with Some v => v | None => TestResults.VPNTest base end) /\
    PingTest_equal (TestResults.PingTest r)
      (PingTest_sanitize
         (match pingTest with Some x => x | None => TestResults.PingTest base end)).
Proof.
  cbn zeta.
  destruct (AppendResult_unfold httpTests speedTests vpnTest pingTest p perm w)
    as (now & w3 & ->).
  cbn [fst snd]. intros Hok Hread.
  destruct (SaveResults_then_LoadResults _ p perm w3 Hok Hread)
    as (r1 & r2 & Hs & Hl & Heq & _).
  rewrite SaveResults_some in Hs. injection Hs as <-.
  exists r2. split; [exact Hl|].
  destruct Heq as (Hh & Hsp & Hv & Hp & _).
  destruct (Time.IsZero _); exact (conj Hh (conj Hsp (conj Hv Hp))).
Qed.

Lemma AppendResult_then_load_witness :
  exists r,
    fst (LoadResults "data.json"
           (snd (AppendResult [sample_http] [] None None "data.json" config.FilePermissions
                   yesterday_world))) = inl r /\
    TestResults.HTTPTests r = map HTTPTest_sanitize ([sample_http] ++ [sample_http]) /\
    Forall2 SpeedTest_equal (TestResults.SpeedTests r) (map SpeedTest_sanitize ([] ++ [])) /\
    TestResults.VPNTest r = VPNTest_sanitize VPNTest.zero /\
    PingTest_equal (TestResults.PingTest r) (PingTest_sanitize PingTest.zero).
Proof.
  apply (AppendResult_then_load [sample_http] [] None None "data.json"
           config.FilePermissions yesterday_world); vm_compute; reflexivity.
Defined.

(** X6. A data.json in the earlier [Tests] format, which holds the VPN and
    ping records only, is read by the decoder of LoadResults into a report
    with these two records, no HTTP or speed results, and the zero
    timestamp. *)
Theorem legacy_document_loads (t : Tests.t) (j : json) :
  Encode_Tests t = Ok j ->
  exists r,
    json_.Unmarshal (os.JSONText j) TestResults.zero = Ok r /\
    TestResults.HTTPTests r = [] /\
    TestResults.SpeedTests r = [] /\
    TestResults.VPNTest r = VPNTest_sanitize (Tests.VPNTest t) /\
    PingTest_equal (TestResults.PingTest r) (PingTest_sanitize (Tests.PingTest t)) /\
    TestResults.Timestamp r = Time.zero.
Proof.
  destruct t as [vpn ping]. unfold Encode_Tests, Encode.struct_.
  cbn [Tests.VPNTest Tests.PingTest Encode.struct_members Encode.field].
  destruct (VPNTest_decode_encode vpn) as (jv & Hjv & Hdv). rewrite Hjv.
  pose proof (PingTest_decode_encode ping) as Hpg.
  destruct (F64.is_inf_or_nan (PingTest.Loss ping)).
  { rewrite Hpg. discriminate. }
  destruct Hpg as (jp & ping' & Hjp & Hdp & Heqp). rewrite Hjp.
  cbn [res_bind app]. intros [= <-].
  exists (TestResults.mk [] [] (VPNTest_sanitize vpn) ping' Time.zero).
  split; [|cbn; auto 10].
  unfold json_.Unmarshal, Decode.TestResults_, Decode.struct_, TestResults.zero.
  repeat (progress
    (cbn [Decode.members Decode.TestResults_field res_bind];
     eval_keys; rewrite ?Hdv, ?Hdp)).
  reflexivity.
Qed.

Lemma legacy_document_loads_witness :
  exists r,
    json_.Unmarshal
      (os.JSONText
         (JObject
            [ ("vpn_test"%string,
               JObject [ ("status"%string, JString "Using VPN or proxy.") ]);
              ("ping_test"%string, JObject []) ]))
      TestResults.zero = Ok r /\
    TestResults.HTTPTests r = [] /\
    TestResults.SpeedTests r = [] /\
    TestResults.VPNTest r = VPNTest_sanitize (VPNTest.mk "Using VPN or proxy." "") /\
    PingTest_equal (TestResults.PingTest r) (PingTest_sanitize PingTest.zero) /\
    TestResults.Timestamp r = Time.zero.
Proof.
  apply (legacy_document_loads (Tests.mk (VPNTest.mk "Using VPN or proxy." "") PingTest.zero)).
  reflexivity.
Defined.

(** ** The probes *)

(** X7. The result of the HTTP, speed and ping probes names the target the
    probe was given, on every path, failures included. *)
Theorem probe_results_carry_target (env : net.Env) (target : string) (cfg : config.Config) :
  HTTPTest.URL (TestHTTP env target cfg) = target /\
  SpeedTest.URL (CheckSpeed env target cfg) = target /\
  PingTest.URL (PingCheck env target cfg) = target.
Proof.
  split; [apply TestHTTP_URL|]. split.
  - unfold CheckSpeed. destruct (net.speed_get env target); reflexivity.
  - pose proof (PingCheck_cases env target cfg) as H.
    destruct (PingCheck_failure env target cfg) as [err|]; [now rewrite H|].
    destruct H as (pinger & ws & e & _ & _ & _ & ->). reflexivity.
Qed.

(** X8. The response length TestHTTP reports is never negative, and it is
    non-zero only when there is no error.  Either a response arrived, and the
    result has its status, its protocol and what its TLS state tells (nothing
    without TLS), with the length of the body and no error, or, when reading
    the body failed, length zero and that error; or no response arrived,
    because the request could not be built or sent, and the result holds
    nothing but the URL and that error. *)
Theorem TestHTTP_outcomes (env : net.Env) (url : string) (cfg : config.Config) :
  let r := TestHTTP env url cfg in
  0 <= HTTPTest.ResponseLength r /\
  (HTTPTest.ResponseLength r = 0 \/ HTTPTest.Error r = ""%string) /\
  ((exists resp,
      net.http_get env url = net.Responds resp /\
      HTTPTest.URL r = url /\
      HTTPTest.Status r = net.Status resp /\
      HTTPTest.Proto r = net.Proto resp /\
      match net.TLS resp with
      | Some tls =>
        HTTPTest.TLSVersion r = pretty (net.Version tls) /\
        HTTPTest.CipherSuite r = pretty (net.CipherSuite tls) /\
        HTTPTest.ServerName r = net.ServerName tls
      | None =>
        HTTPTest.TLSVersion r = ""%string /\
        HTTPTest.CipherSuite r = ""%string /\
        HTTPTest.ServerName r = ""%string
      end /\
      match net.Body resp with
      | inl body => HTTPTest.ResponseLength r = len body /\ HTTPTest.Error r = ""%string
      | inr err => HTTPTest.ResponseLength r = 0 /\ HTTPTest.Error r = err
      end) \/
   (exists err,
      (net.http_get env url = net.RequestError err \/
       net.http_get env url = net.DoError err) /\
      r = HTTPTest.mk url "" "" "" "" "" 0 err)).
Proof.
  cbn zeta. unfold TestHTTP.
  destruct (net.http_get env url) as [e|e|resp].
  - cbn. split; [lia|]. split; [auto|]. right. exists e. auto.
  - cbn. split; [lia|]. split; [auto|]. right. exists e. auto.
  - assert (Hlen : forall b, 0 <= len b) by (intros b; unfold len; lia).
    destruct (net.TLS resp) as [tls|] eqn:Htls;
      destruct (net.Body resp) as [body|e] eqn:Hbody; cbn;
      (split; [auto with zarith|]); (split; [auto|]); left; exists resp;
      rewrite Htls, Hbody; auto 10.
Qed.

(** X9. CheckSpeed reports measurements or an error, never both.  When the
    request or the read of the body fails, the result holds the URL and that
    error, and speed, elapsed time and byte count are zero.  When the body
    was downloaded, the error is empty, the byte count is the length of the
    body, the elapsed time is the time measured, and the speed is the byte
    count over the seconds elapsed, scaled to megabits.  The byte count is
    never negative. *)
Theorem CheckSpeed_outcomes (env : net.Env) (url : string) (cfg : config.Config) :
  let r := CheckSpeed env url cfg in
  0 <= SpeedTest.BytesReceived r /\
  ((exists err,
      (net.speed_get env url = net.GetError err \/
       net.speed_get env url = net.SpeedReadError err) /\
      r = SpeedTest.mk url F64.zero 0 0 err) \/
   (exists body elapsed,
      net.speed_get env url = net.Downloaded body elapsed /\
      SpeedTest.URL r = url /\
      SpeedTest.Error r = ""%string /\
      SpeedTest.BytesReceived r = len body /\
      SpeedTest.ElapsedTime r = elapsed /\
      SpeedTest.DownloadMbps r =
        F64.mul
          (F64.div (F64.div (F64.of_int (len body)) (Seconds elapsed))
             (F64.of_int config.BytesToMegabytes))
          (F64.of_int config.BytesToBits))).
Proof.
  cbn zeta. unfold CheckSpeed.
  destruct (net.speed_get env url) as [e|e|body elapsed]; cbn.
  - split; [lia|]. left. exists e. auto.
  - split; [lia|]. left. exists e. auto.
  - split; [unfold len; lia|]. right. exists body, elapsed. auto 10.
Qed.

(** X11. CheckVPN reports a status or an error, never both, and the status
    is one of its two messages. *)
Theorem CheckVPN_outcomes (env : net.Env) (ipChecker : string) :
  let r := CheckVPN env ipChecker in
  (VPNTest.Status r = ""%string \/ VPNTest.Error r = ""%string) /\
  (VPNTest.Status r = ""%string \/
   VPNTest.Status r = "Not using VPN or proxy."%string \/
   VPNTest.Status r = "Using VPN or proxy."%string).
Proof.
  cbn zeta. unfold CheckVPN.
  destruct (net.vpn_check env ipChecker) as [e|e| |ip|e| |ext loc]; cbn; auto.
  destruct (String.eqb ext loc); cbn; auto.
Qed.

Lemma div_by_zero_unsupported (x : float64) (s : bool) :
  F64.is_inf_or_nan (F64.div x (S754_zero s)) = true.
Proof. destruct x as [sx|sx| |sx m e]; reflexivity. Qed.

Lemma scaled_unsupported (x : float64) :
  F64.is_inf_or_nan x = true ->
  F64.is_inf_or_nan
    (F64.mul (F64.div x (F64.of_int config.BytesToMegabytes))
       (F64.of_int config.BytesToBits)) = true.
Proof. destruct x as [sx|sx| |sx m e]; try discriminate; intros _; vm_compute; reflexivity. Qed.

Lemma CheckSpeed_zero_elapsed (env : net.Env) (url : string) (cfg : config.Config)
    (body : string) :
  net.speed_get env url = net.Downloaded body 0 ->
  F64.is_inf_or_nan (SpeedTest.DownloadMbps (CheckSpeed env url cfg)) = true.
Proof.
  intros H. unfold CheckSpeed. rewrite H. cbn [SpeedTest.DownloadMbps].
  apply scaled_unsupported.
  change (Seconds 0) with (S754_zero false). apply div_by_zero_unsupported.
Qed.

Lemma step_sent_bounded {St} (p : ping.Pinger St) (w : ping.wire) (s : St) :
  1 <= ping.Count p ->
  sent_bounded p ->
  sent_bounded (fst (ping.step p w s)) /\
  ping.Count (fst (ping.step p w s)) = ping.Count p.
Proof.
  unfold sent_bounded, ping.step, ping.processPacket.
  intros Hone (Hr & Hs & Hc). destruct w as [|pkt].
  - destruct ((0 <? ping.Count p) && (ping.Count p <=? ping.PacketsSent p)) eqn:Hb;
      cbn [fst ping.sendICMP ping.PacketsRecv ping.PacketsSent ping.Count]; [auto|].
    apply andb_false_iff in Hb as [Hb|Hb];
      [apply Z.ltb_ge in Hb|apply Z.leb_gt in Hb]; repeat split; lia.
  - destruct (ping.inflight p (ping.Seq pkt));
      cbn [fst ping.PacketsRecv ping.PacketsSent ping.Count]; repeat split; lia.
Qed.

Lemma runLoop_sent_bounded {St} (ws : list ping.wire) : forall (p : ping.Pinger St) (s : St),
  1 <= ping.Count p ->
  sent_bounded p ->
  sent_bounded (fst (fst (ping.runLoop p ws s))) /\
  ping.Count (fst (fst (ping.runLoop p ws s))) = ping.Count p.
Proof.
  induction ws as [|w ws IH]; intros p s Hone Hb; cbn [ping.runLoop]; [auto|].
  destruct (step_sent_bounded p w s Hone Hb) as [Hb' Hc'].
  destruct (ping.step p w s) as [p' s']. cbn [fst] in *.
  destruct (ping.count_reached p'); [auto|].
  destruct (IH p' s') as [? ?]; [lia|assumption|]. split; [assumption|congruence].
Qed.

(** X12. With a ping count of at least one, PingCheck never reports more
    packets transmitted than the count configured, nor more received than
    transmitted, nor a negative number. *)
Theorem PingCheck_within_count (env : net.Env) (domain : string) (cfg : config.Config) :
  1 <= config.PingCount cfg ->
  let r := PingCheck env domain cfg in
  0 <= PingTest.Received r /\
  PingTest.Received r <= PingTest.Transmitted r /\
  PingTest.Transmitted r <= config.PingCount cfg.
Proof.
  intros Hcount. cbn zeta.
  pose proof (PingCheck_cases env domain cfg) as H.
  destruct (PingCheck_failure env domain cfg) as [err|]; [rewrite H; cbn; lia|].
  destruct H as (pinger & ws & e & Hnew & _ & H).
  assert (Hinit : ping.PacketsSent pinger = 0 /\ ping.PacketsRecv pinger = 0).
  { unfold ping.NewPinger in Hnew. destruct (net.resolve env domain); [|discriminate].
    injection Hnew as <-. auto. }
  pose proof (runLoop_sent_bounded ws (ping.sendICMP (PingCheck_pinger pinger cfg))
                (PingTest.mk domain 0 0 F64.zero "",
                 [LogPing (ping.addr pinger) (ping.ipaddr pinger)])) as Hb.
  cbn zeta in H.
  destruct (ping.runLoop _ ws _) as [[p' s'] counted]. cbn [fst] in Hb, H.
  destruct H as [Hrb ->]. cbn [PingTest.Received PingTest.Transmitted].
  destruct Hb as [(Hr & Hs & Hc) Hcnt].
  { cbn. exact Hcount. }
  { unfold sent_bounded. cbn. destruct Hinit as [-> ->]. lia. }
  cbn in Hcnt. unfold replies_bounded in Hrb. lia.
Qed.

Lemma PingCheck_within_count_witness :
  let r := PingCheck scenario_env "some.example" config.New in
  0 <= PingTest.Received r /\
  PingTest.Received r <= PingTest.Transmitted r /\
  PingTest.Transmitted r <= config.PingCount config.New.
Proof.
  apply PingCheck_within_count. vm_compute. discriminate.
Defined.

(** ** The orchestrators, further *)

Lemma store_speedTests (env : net.Env) (cfg : config.Config) (sched : list task) : forall c,
  speedTests (fold_left (store env cfg) sched c) =
  speedTests c ++ map (fun u => Some (CheckSpeed env u cfg)) (speed_urls sched).
Proof.
  induction sched as [|g sched IH]; intros c; cbn [fold_left].
  - cbn. now rewrite app_nil_r.
  - rewrite IH. destruct g as [u|u| |d]; cbn [store speedTests]; try reflexivity.
    + cbn [speed_urls omap]. fold (speed_urls sched). cbn [map]. now rewrite <- app_assoc.
    + destruct (pingTest c); reflexivity.
Qed.

Lemma speed_urls_launched (us ss ds : list string) : speed_urls (launched us ss ds) = ss.
Proof.
  unfold launched, speed_urls. rewrite !omap_app.
  assert (H1 : omap (fun g => match g with SpeedTask u => Some u | _ => None end)
                 (map SpeedTask ss) = ss).
  { induction ss as [|u l IH]; cbn; [|rewrite IH]; reflexivity. }
  assert (H2 : forall l, omap (fun g => match g with SpeedTask u => Some u | _ => None end)
                 (map HTTPTask l) = []).
  { induction l as [|u l IH]; cbn; [|rewrite IH]; reflexivity. }
  assert (H3 : forall l, omap (fun g => match g with SpeedTask u => Some u | _ => None end)
                 (map PingTask l) = []).
  { induction l as [|u l IH]; cbn; [|rewrite IH]; reflexivity. }
  rewrite H1, H2, H3. cbn. now rewrite app_nil_r.
Qed.

Lemma store_vpnTest (env : net.Env) (cfg : config.Config) (sched : list task) : forall c,
  VPNTask ∈ sched ->
  vpnTest (fold_left (store env cfg) sched c) =
  Some (CheckVPN env "http://checkip.dyndns.org/").
Proof.
  assert (Hkeep : forall sched c v, vpnTest c = Some (CheckVPN env "http://checkip.dyndns.org/") ->
            v = fold_left (store env cfg) sched c ->
            vpnTest v = Some (CheckVPN env "http://checkip.dyndns.org/")).
  { intros sched'. induction sched' as [|g sched' IH]; intros c v Hc ->; [exact Hc|].
    cbn [fold_left]. eapply IH; [|reflexivity].
    destruct g; cbn [store vpnTest]; try assumption; [reflexivity|].
    destruct (pingTest c); assumption. }
  induction sched as [|g sched IH]; intros c Hin; [inversion Hin|].
  cbn [fold_left]. apply elem_of_cons in Hin as [<-|Hin].
  - eapply Hkeep; [|reflexivity]. reflexivity.
  - apply IH. exact Hin.
Qed.

(** The report of runAllTests, by containers. *)
Lemma runAllTests_report (env : net.Env) (cfg : config.Config) (sched : list task)
    (w : World) :
  exists r,
    saved_results (runAllTests env cfg sched w) = Some r /\
    TestResults.HTTPTests r = map (fun u => TestHTTP env u cfg) (http_urls sched) /\
    TestResults.SpeedTests r = map (fun u => CheckSpeed env u cfg) (speed_urls sched) /\
    TestResults.VPNTest r =
      match vpnTest (fold_left (store env cfg) sched (mkContainers [] [] None None)) with
      | Some v => v
      | None => VPNTest.zero
      end.
Proof.
  unfold runAllTests. rewrite SaveResults_some.
  eexists; split; [reflexivity|].
  rewrite store_httpTests, store_speedTests. cbn [httpTests speedTests app].
  rewrite !values_map_Some.
  destruct (vpnTest _), (pingTest _), (Time.IsZero _); repeat split; reflexivity.
Qed.

(** X13. For any target lists, repeated targets included, and any order of
    the stores, the report of runAllTests holds the HTTP results of the HTTP
    targets and the speed results of the speed targets, each up to order, and
    the result of the VPN check. *)
Theorem runAllTests_collects_every_probe (env : net.Env) (cfg : config.Config)
    (urls speeds domains : list string) (sched : list task) (w : World) :
  sched ≡ₚ launched urls speeds domains ->
  exists r,
    saved_results (runAllTests env cfg sched w) = Some r /\
    TestResults.HTTPTests r ≡ₚ map (fun u => TestHTTP env u cfg) urls /\
    TestResults.SpeedTests r ≡ₚ map (fun u => CheckSpeed env u cfg) speeds /\
    TestResults.VPNTest r = CheckVPN env "http://checkip.dyndns.org/".
Proof.
  intros Hs.
  destruct (runAllTests_report env cfg sched w) as (r & Hr & Hh & Hsp & Hv).
  exists r. split; [exact Hr|].
  assert (Hp1 : http_urls sched ≡ₚ urls).
  { rewrite <- (http_urls_launched urls speeds domains). unfold http_urls. now rewrite Hs. }
  assert (Hp2 : speed_urls sched ≡ₚ speeds).
  { rewrite <- (speed_urls_launched urls speeds domains). unfold speed_urls. now rewrite Hs. }
  rewrite Hh, Hsp, Hv. split; [now rewrite Hp1|]. split; [now rewrite Hp2|].
  rewrite store_vpnTest; [reflexivity|].
  rewrite Hs. unfold launched. rewrite !elem_of_app. right. right. left. left.
Qed.

Lemma runAllTests_collects_every_probe_witness :
  exists r,
    saved_results
      (runAllTests scenario_env config.New (rev (launched httpURLs speedURLs pingDomains))
         empty_world) = Some r /\
    TestResults.HTTPTests r ≡ₚ map (fun u => TestHTTP scenario_env u config.New) httpURLs /\
    TestResults.SpeedTests r ≡ₚ map (fun u => CheckSpeed scenario_env u config.New) speedURLs /\
    TestResults.VPNTest r = CheckVPN scenario_env "http://checkip.dyndns.org/".
Proof.
  apply (runAllTests_collects_every_probe scenario_env config.New httpURLs speedURLs
           pingDomains).
  symmetry. apply Permutation_rev.
Defined.

(** X14. The outcome of runHTTPTests (the report, the error of the save and
    the files) does not depend on the order in which its goroutines finish,
    also when URLs are repeated. *)
Theorem runHTTPTests_any_schedule (env : net.Env) (cfg : config.Config) (urls : list string)
    (sched1 sched2 : list (nat * string)) (w : World) :
  sched1 ≡ₚ http_goroutines urls ->
  sched2 ≡ₚ http_goroutines urls ->
  runHTTPTests env urls cfg sched1 w = runHTTPTests env urls cfg sched2 w.
Proof.
  intros H1 H2. unfold runHTTPTests.
  now rewrite (runHTTPTests_slots env cfg urls sched1 H1),
              (runHTTPTests_slots env cfg urls sched2 H2).
Qed.

Lemma runHTTPTests_any_schedule_witness :
  runHTTPTests quiet_env ["http://a/"; "http://a/"; "http://b/"]%string config.New
    (rev (http_goroutines ["http://a/"; "http://a/"; "http://b/"]%string)) empty_world =
  runHTTPTests quiet_env ["http://a/"; "http://a/"; "http://b/"]%string config.New
    (http_goroutines ["http://a/"; "http://a/"; "http://b/"]%string) empty_world.
Proof.
  apply runHTTPTests_any_schedule; [symmetry; apply Permutation_rev|reflexivity].
Defined.

(** X15. Called with arguments, main runs the HTTP probe on them and nothing
    else: the report holds one HTTP result per argument, in the order of the
    arguments, no speed result, and the zero VPN and ping records. *)
Theorem main_with_arguments (args : list string) (env : net.Env)
    (sched1 : list (nat * string)) (sched2 : list task) (w : World) :
  args <> [] ->
  sched1 ≡ₚ http_goroutines args ->
  exists r,
    saved_results (main args env sched1 sched2 w) = Some r /\
    TestResults.HTTPTests r = map (fun u => TestHTTP env u config.New) args /\
    TestResults.SpeedTests r = [] /\
    TestResults.VPNTest r = VPNTest.zero /\
    TestResults.PingTest r = PingTest.zero.
Proof.
  intros Hargs H1. unfold main.
  destruct args as [|a args]; [contradiction|]. cbn [List.length Nat.ltb Nat.leb].
  unfold runHTTPTests.
  rewrite (runHTTPTests_slots env config.New (a :: args) sched1 H1).
  rewrite SaveResults_some, values_map_Some.
  eexists. split; [reflexivity|].
  destruct (Time.IsZero _); repeat split; reflexivity.
Qed.

Lemma main_with_arguments_witness :
  exists r,
    saved_results
      (main ["http://a/"; "http://a/"]%string quiet_env
         (rev (http_goroutines ["http://a/"; "http://a/"]%string)) [] empty_world) = Some r /\
    TestResults.HTTPTests r =
      map (fun u => TestHTTP quiet_env u config.New) ["http://a/"; "http://a/"]%string /\
    TestResults.SpeedTests r = [] /\
    TestResults.VPNTest r = VPNTest.zero /\
    TestResults.PingTest r = PingTest.zero.
Proof.
  apply main_with_arguments; [discriminate|symmetry; apply Permutation_rev].
Defined.

(** runAllTests is one SaveResults of the report it assembled. *)
Lemma runAllTests_as_save (env : net.Env) (cfg : config.Config) (sched : list task)
    (w : World) :
  exists tr,
    runAllTests env cfg sched w =
      SaveResults (Some tr) (config.ResultsFilePath cfg) config.FilePermissions w /\
    TestResults.SpeedTests tr = map (fun u => CheckSpeed env u cfg) (speed_urls sched).
Proof.
  unfold runAllTests. eexists. split; [reflexivity|].
  rewrite store_speedTests. cbn [speedTests app]. rewrite values_map_Some.
  destruct (vpnTest _), (pingTest _); reflexivity.
Qed.

(** X10. A download that takes no measurable time makes CheckSpeed divide by
    zero: the speed is infinite or NaN.  A pass of runAllTests with such a
    speed result saves nothing: SaveResults returns the parse error of the
    unsupported value and no file is written, whatever the other probes
    returned. *)
Theorem zero_elapsed_download_is_not_saved (env : net.Env) (cfg : config.Config)
    (sched : list task) (u body : string) (w : World) :
  SpeedTask u ∈ sched ->
  net.speed_get env u = net.Downloaded body 0 ->
  F64.is_inf_or_nan (SpeedTest.DownloadMbps (CheckSpeed env u cfg)) = true /\
  saved_err (runAllTests env cfg sched w) =
    Some (NewParseError "Storage" "failed to marshal results to JSON"
            (JSONError UnsupportedValueError)) /\
  files (saved_world (runAllTests env cfg sched w)) = files w.
Proof.
  intros Hin Hget.
  pose proof (CheckSpeed_zero_elapsed env u cfg body Hget) as Hinf.
  split; [exact Hinf|].
  destruct (runAllTests_as_save env cfg sched w) as (tr & -> & Hsp).
  pose proof (SaveResults_marshal_outcome tr (config.ResultsFilePath cfg)
                config.FilePermissions w) as H.
  cbn zeta in H.
  assert (Hf : has_unsupported_float tr = true).
  { unfold has_unsupported_float. rewrite Hsp. apply orb_true_iff. left.
    apply existsb_exists. exists (CheckSpeed env u cfg). split; [|exact Hinf].
    apply in_map_iff. exists u. split; [reflexivity|].
    apply list_elem_of_In. unfold speed_urls. apply list_elem_of_omap.
    exists (SpeedTask u). split; [exact Hin|reflexivity]. }
  rewrite Hf in H. cbn [orb] in H. exact H.
Qed.

Lemma zero_elapsed_download_is_not_saved_witness :
  F64.is_inf_or_nan
    (SpeedTest.DownloadMbps (CheckSpeed instant_env "https://google.com" config.New)) = true /\
  saved_err (runAllTests instant_env config.New (launched httpURLs speedURLs pingDomains)
               yesterday_world) =
    Some (NewParseError "Storage" "failed to marshal results to JSON"
            (JSONError UnsupportedValueError)) /\
  files (saved_world (runAllTests instant_env config.New
                        (launched httpURLs speedURLs pingDomains) yesterday_world)) =
    files yesterday_world.
Proof.
  apply (zero_elapsed_download_is_not_saved instant_env config.New
           (launched httpURLs speedURLs pingDomains) "https://google.com" "ok" yesterday_world).
  - unfold launched. rewrite !elem_of_app. right. left. cbn. right. left.
  - reflexivity.
Defined.

(** X16. A pass of either orchestrator changes no file but the results file
    of the configuration. *)
Theorem pass_writes_results_file_only (env : net.Env) (cfg : config.Config)
    (urls : list string) (sched1 : list (nat * string)) (sched2 : list task)
    (q : string) (w : World) :
  q <> config.ResultsFilePath cfg ->
  files (saved_world (runHTTPTests env urls cfg sched1 w)) !! q = files w !! q /\
  files (saved_world (runAllTests env cfg sched2 w)) !! q = files w !! q.
Proof.
  intros Hq. unfold runHTTPTests, runAllTests. split; now apply SaveResults_frame.
Qed.

Lemma pass_writes_results_file_only_witness :
  files (saved_world (runHTTPTests quiet_env httpURLs config.New (http_goroutines httpURLs)
                        empty_world)) !! "other.json"%string =
    files empty_world !! "other.json"%string /\
  files (saved_world (runAllTests quiet_env config.New
                        (launched httpURLs speedURLs pingDomains) empty_world))
    !! "other.json"%string = files empty_world !! "other.json"%string.
Proof.
  apply pass_writes_results_file_only. discriminate.
Defined.

(** ** A pass, then load; the members of the document *)

(** X17. After a pass of runHTTPTests whose save succeeded, loading the
    results file gives one HTTP result per URL, in the order of the URLs,
    each the probe's result with its strings made valid UTF-8, and no speed,
    VPN or ping result. *)
Theorem pass_then_load (env : net.Env) (cfg : config.Config) (urls : list string)
    (sched : list (nat * string)) (w : World) :
  sched ≡ₚ http_goroutines urls ->
  saved_err (runHTTPTests env urls cfg sched w) = None ->
  readable (saved_world (runHTTPTests env urls cfg sched w)) (config.ResultsFilePath cfg)
    = true ->
  exists r,
    fst (LoadResults (config.ResultsFilePath cfg)
           (saved_world (runHTTPTests env urls cfg sched w))) = inl r /\
    TestResults.HTTPTests r =
      map (fun u => HTTPTest_sanitize (TestHTTP env u cfg)) urls /\
    TestResults.SpeedTests r = [] /\
    TestResults.VPNTest r = VPNTest.zero /\
    PingTest_equal (TestResults.PingTest r) PingTest.zero.
Proof.
  intros Hs. unfold runHTTPTests.
  rewrite (runHTTPTests_slots env cfg urls sched Hs), values_map_Some.
  intros Hok Hread.
  destruct (SaveResults_then_LoadResults _ _ _ _ Hok Hread) as (r1 & r2 & Hsv & Hl & Heq & _).
  rewrite SaveResults_some in Hsv. injection Hsv as <-.
  exists r2. split; [exact Hl|].
  destruct Heq as (Hh & Hsp & Hv & Hp & _).
  cbn [TestResults_sanitize TestResults.set_Timestamp TestResults.HTTPTests
       TestResults.SpeedTests TestResults.VPNTest TestResults.PingTest map] in *.
  rewrite map_map in Hh. inversion Hsp. auto.
Qed.

Lemma pass_then_load_witness :
  exists r,
    fst (LoadResults (config.ResultsFilePath config.New)
           (saved_world (runHTTPTests quiet_env [latin1_url] config.New
                           (http_goroutines [latin1_url]) empty_world))) = inl r /\
    TestResults.HTTPTests r =
      map (fun u => HTTPTest_sanitize (TestHTTP quiet_env u config.New)) [latin1_url] /\
    TestResults.SpeedTests r = [] /\
    TestResults.VPNTest r = VPNTest.zero /\
    PingTest_equal (TestResults.PingTest r) PingTest.zero.
Proof.
  apply pass_then_load; [reflexivity|vm_compute; reflexivity..].
Defined.

(** X18. In every document SaveResults writes, [http_tests] and
    [speed_tests] are present exactly when their sequences are not empty,
    and [vpn_test], [ping_test] and [timestamp] are always present. *)
Theorem written_members (r : TestResults.t) (d : os.bytes) :
  json_.MarshalIndent r = Ok d ->
  has_key "http_tests" (Ok d) = negb (Encode.empty_slice (TestResults.HTTPTests r)) /\
  has_key "speed_tests" (Ok d) = negb (Encode.empty_slice (TestResults.SpeedTests r)) /\
  has_key "vpn_test" (Ok d) = true /\
  has_key "ping_test" (Ok d) = true /\
  has_key "timestamp" (Ok d) = true.
Proof. apply TestResults_keys. Qed.

Lemma written_members_witness :
  has_key "http_tests" (json_.MarshalIndent yesterday_report) =
    negb (Encode.empty_slice (TestResults.HTTPTests yesterday_report)) /\
  has_key "speed_tests" (json_.MarshalIndent yesterday_report) =
    negb (Encode.empty_slice (TestResults.SpeedTests yesterday_report)) /\
  has_key "vpn_test" (json_.MarshalIndent yesterday_report) = true /\
  has_key "ping_test" (json_.MarshalIndent yesterday_report) = true /\
  has_key "timestamp" (json_.MarshalIndent yesterday_report) = true.
Proof.
  destruct (json_.MarshalIndent yesterday_report) as [d|e] eqn:H; [|discriminate].
  apply (written_members yesterday_report d H).
Defined.

Lemma TestResults_field_unknown (k : string) (v : json) (r : TestResults.t) :
  existsb (Decode.equalFold k) TestResults_names = false ->
  Decode.TestResults_field k v r = Ok r.
Proof.
  cbn [existsb TestResults_names]. rewrite !orb_false_iff.
  intros (H1 & H2 & H3 & H4 & H5 & _).
  unfold Decode.TestResults_field. destruct r.
  now rewrite H1, H2, H3, H4, H5.
Qed.

(** X19. A member whose key belongs to none of the five fields of
    [TestResults], neither as it is written nor with case ignored, is skipped
    wherever it stands in the document and whatever its value: the report
    read is the same as without it. *)
Theorem unknown_members_are_ignored (k : string) (v : json)
    (before after : list (string * json)) (r : TestResults.t) :
  existsb (Decode.equalFold k) TestResults_names = false ->
  json_.Unmarshal (os.JSONText (JObject (before ++ (k, v) :: after))) r =
  json_.Unmarshal (os.JSONText (JObject (before ++ after))) r.
Proof.
  intros Hk. unfold json_.Unmarshal, Decode.TestResults_, Decode.struct_.
  revert r. induction before as [|[k' v'] ms IH]; intros r; cbn [app Decode.members].
  - now rewrite TestResults_field_unknown.
  - destruct (Decode.TestResults_field k' v' r) as [r'|e]; cbn [res_bind]; [apply IH|reflexivity].
Qed.

Lemma unknown_members_are_ignored_witness :
  json_.Unmarshal
    (os.JSONText (JObject ([("timestamp"%string, JTime noon)] ++
                           ("custom_tests"%string, JArray []) :: [])))
    TestResults.zero =
  json_.Unmarshal (os.JSONText (JObject ([("timestamp"%string, JTime noon)] ++ [])))
    TestResults.zero.
Proof.
  apply unknown_members_are_ignored. vm_compute. reflexivity.
Defined.

(** Keys are matched with case ignored: a member [HTTP_TESTS] sets the HTTP
    results, and the long s stands for an s. *)
Example upper_case_key_is_read :
  json_.Unmarshal
    (os.JSONText (JObject [("HTTP_TESTS"%string, JArray []); ("TimeStamp"%string, JTime noon)]))
    yesterday_report =
  Ok (TestResults.mk [] [] VPNTest.zero PingTest.zero noon).
Proof. vm_compute. reflexivity. Qed.

Example long_s_key_is_read :
  Decode.equalFold
    ("time" +:+ String (ascii_of_N 197) (String (ascii_of_N 191) "tamp")) "timestamp" = true /\
  Decode.equalFold "time_stamp" "timestamp" = false.
Proof. vm_compute. auto. Qed.

Example corrupt_file_is_a_parse_error :
  LoadResults "data.json" corrupt_world =
  (inr (NewParseError "Storage" "failed to parse results JSON" (JSONError SyntaxError)),
   corrupt_world).
Proof. reflexivity. Qed.
